(** * Order integrity and pricing of the auth-starter service

    A shallow embedding of the order endpoints of [src/index.js]
    ([calculateOrderTotal], [POST /orders], [PUT /orders/:id]) and the
    theorems that settle the specification's claims about them.

    JavaScript numbers are IEEE 754 binary64 values; they are modelled by
    Rocq's primitive [float], whose operations the kernel evaluates and
    whose specification is [SpecFloat].  The database tables are finite
    maps from primary keys to rows; a request handler is a function from
    the database to a response and the database after the request. *)

From Stdlib Require Import ZArith Bool List String Lia.
From Stdlib Require Import Floats.
From Stdlib Require Uint63.
From stdpp Require Import base option list gmap.

Local Open Scope Z_scope.
Set Warnings "-inexact-float".

(* ================================================================== *)
(** ** JavaScript numbers *)

Module JS.

(** The sign bit of a number; [NaN] carries none here. *)
Definition signbit (x : float) : bool :=
  match Prim2SF x with
  | S754_zero s | S754_infinity s | S754_finite s _ _ => s
  | S754_nan => false
  end.

(** An integer of magnitude below 2^53, with the sign given apart so
    that a negative zero can be produced. *)
Definition of_sign_magnitude (s : bool) (n : Z) : float :=
  let m := PrimFloat.of_uint63 (Uint63.of_Z n) in
  if s then (- m)%float else m.

(** The integer closest to the fraction num/den, a tie going to the
    greater one: floor(num/den + 1/2). *)
Definition nearest_ties_up (num den : Z) : Z :=
  (2 * num + den) `div` (2 * den).

(** [Math.round(x)]: the integral number closest to [x], a tie going to
    the one closer to +∞; NaN, the infinities, the zeros and the
    integral numbers are returned as they are, and a result of zero
    keeps the sign of [x].  A finite x is ±m·2^e; with e < 0 it is the
    fraction ±m / 2^-e. *)
Definition Math_round (x : float) : float :=
  match Prim2SF x with
  | S754_finite s m e =>
      if 0 <=? e then x
      else
        let n := nearest_ties_up (if s then Z.neg m else Z.pos m) (2 ^ (- e)) in
        of_sign_magnitude s (Z.abs n)
  | _ => x
  end.

(** Rounding to the closest integer with a tie going away from zero:
    sign(x) · floor(|x| + 1/2).  This is the rounding the specification
    names; [Math_round] is the one the code calls. *)
Definition round_half_away (x : float) : float :=
  match Prim2SF x with
  | S754_finite s m e =>
      if 0 <=? e then x
      else of_sign_magnitude s (nearest_ties_up (Z.pos m) (2 ^ (- e)))
  | _ => x
  end.

(** [Math.round(x * 100) / 100], the code's rounding to 2 decimals. *)
Definition round2 (x : float) : float :=
  (Math_round (x * 100) / 100)%float.

(** The same with ties away from zero. *)
Definition round2_half_away (x : float) : float :=
  (round_half_away (x * 100) / 100)%float.

(** [ToNumber] of a property that is a number when present: a missing
    property reads as [undefined], whose numeric value is NaN. *)
Definition ToNumber (v : option float) : float :=
  match v with
  | Some x => x
  | None => nan
  end.

End JS.

(* ================================================================== *)
(** ** Data model *)

(** Rows of the tables, without their primary key, which is the key of
    the table. *)
Record User := mkUser {
  user_name : string;
  user_email : string;
  user_password : string
}.

Record Product := mkProduct {
  product_name : string;
  product_description : string;
  price : float;
  categoryId : Z
}.

(** An element of the [products] array of a request body or of an
    order: the key of a product, and a quantity that is a number or is
    missing ([None]). *)
Record LineItem := mkLineItem {
  productId : Z;
  quantity : option float
}.

Record Order := mkOrder {
  userId : Z;
  products : list LineItem;
  total : float
}.

(** The database: the tables [User], [Product] and [Order], and the
    counter from which [Order.create] takes the next primary key. *)
Record Db := mkDb {
  Users : gmap Z User;
  Products : gmap Z Product;
  Orders : gmap Z Order;
  nextOrderId : Z
}.

(** The fields of [req.body] that a client can send to the order
    endpoints.  [body_userId = None] is a missing [userId].
    [body_products = None] is a [products] that is missing or is not an
    array: both handlers test it only through
    [orderProducts && Array.isArray(orderProducts)], which is false in
    either case.  [body_total] is a [total] property of the body. *)
Record Body := mkBody {
  body_userId : option Z;
  body_products : option (list LineItem);
  body_total : option float
}.

Inductive error :=
| FieldsRequired                  (* "userId and products array are required" *)
| UserDoesNotExist                (* "User does not exist" *)
| ProductDoesNotExist (pid : Z).  (* "Product with id ${pid} does not exist" *)

Inductive response :=
| Created (id : Z) (o : Order)    (* 201, the order *)
| Ok (id : Z) (o : Order)         (* 200, the order *)
| BadRequest (e : error)          (* 400 *)
| NotFound.                       (* 404, "Order not found" *)

(* ================================================================== *)
(** ** Storage interface

    [findByPk], [create] and [save] of the persistence layer, which is
    not part of the source file: a lookup by primary key returns the row
    or nothing, [create] stores the row under a fresh key, [save] writes
    the instance back under its key.  They do not fail; the handlers'
    [catch] branches (status 500) are therefore not reached.  The table
    keeps the instance as the handler wrote it; what the columns of the
    table [Order] return of it when the row is read is [readBack],
    below. *)

Definition User_findByPk (db : Db) (id : Z) : option User := Users db !! id.
Definition Product_findByPk (db : Db) (id : Z) : option Product := Products db !! id.
Definition Order_findByPk (db : Db) (id : Z) : option Order := Orders db !! id.

Definition Order_create (db : Db) (o : Order) : Z * Db :=
  let id := nextOrderId db in
  (id, mkDb (Users db) (Products db) (<[id := o]> (Orders db)) (id + 1)).

Definition Order_save (db : Db) (id : Z) (o : Order) : Db :=
  mkDb (Users db) (Products db) (<[id := o]> (Orders db)) (nextOrderId db).

(** [!userId] for a [userId] that is an integer or missing. *)
Definition falsy (v : option Z) : bool :=
  match v with
  | None => true
  | Some n => n =? 0
  end.

(* ================================================================== *)
(** ** The order endpoints *)

(** One turn of the loop of [calculateOrderTotal]. *)
Definition addLine (db : Db) (total : float) (item : LineItem) : float :=
  match Product_findByPk db (productId item) with
  | Some product => (total + price product * JS.ToNumber (quantity item))%float
  | None => total
  end.

(** [calculateOrderTotal(orderProducts)]. *)
Definition calculateOrderTotal (db : Db) (orderProducts : list LineItem) : float :=
  let total := fold_left (addLine db) orderProducts 0%float in
  (JS.Math_round (total * 100) / 100)%float.

(** The loop "check if all products exist" of both handlers: the
    [productId] of the first item whose product is not found. *)
Fixpoint firstMissingProduct (db : Db) (orderProducts : list LineItem) : option Z :=
  match orderProducts with
  | [] => None
  | item :: rest =>
      match Product_findByPk db (productId item) with
      | None => Some (productId item)
      | Some _ => firstMissingProduct db rest
      end
  end.

(** [POST /orders]. *)
Definition post_orders (body : Body) (db : Db) : response * Db :=
  match body_userId body, body_products body with
  | Some uid, Some orderProducts =>
      if falsy (Some uid) then (BadRequest FieldsRequired, db)
      else
        match User_findByPk db uid with
        | None => (BadRequest UserDoesNotExist, db)
        | Some _ =>
            match firstMissingProduct db orderProducts with
            | Some pid => (BadRequest (ProductDoesNotExist pid), db)
            | None =>
                let total := calculateOrderTotal db orderProducts in
                let order := mkOrder uid orderProducts total in
                let (id, db') := Order_create db order in
                (Created id order, db')
            end
        end
  | _, _ => (BadRequest FieldsRequired, db)
  end.

(** The two conditional blocks of [PUT /orders/:id] act on the instance
    [order] that [findByPk] returned; each either answers the request
    (left) or goes on with the instance as it has changed it (right). *)
Definition put_userId (db : Db) (body : Body) (order : Order) : response + Order :=
  match body_userId body with
  | Some uid =>
      if falsy (Some uid) then inr order
      else
        match User_findByPk db uid with
        | None => inl (BadRequest UserDoesNotExist)
        | Some _ => inr (mkOrder uid (products order) (total order))
        end
  | None => inr order
  end.

Definition put_products (db : Db) (body : Body) (order : Order) : response + Order :=
  match body_products body with
  | Some orderProducts =>
      match firstMissingProduct db orderProducts with
      | Some pid => inl (BadRequest (ProductDoesNotExist pid))
      | None =>
          inr (mkOrder (userId order) orderProducts
                 (calculateOrderTotal db orderProducts))
      end
  | None => inr order
  end.

(** [PUT /orders/:id]. *)
Definition put_orders (id : Z) (body : Body) (db : Db) : response * Db :=
  match Order_findByPk db id with
  | None => (NotFound, db)
  | Some order =>
      match put_userId db body order with
      | inl r => (r, db)
      | inr order1 =>
          match put_products db body order1 with
          | inl r => (r, db)
          | inr order2 => (Ok id order2, Order_save db id order2)
          end
      end
  end.

(* ================================================================== *)
(** ** The specification's reading of the total

    These definitions follow the words of the specification, to be
    compared with [calculateOrderTotal] above. *)

(** "Every productId resolves to an existing Product." *)
Definition allResolve (db : Db) (lineItems : list LineItem) : Prop :=
  Forall (fun item => is_Some (Product_findByPk db (productId item))) lineItems.

(** "Some productId does not resolve." *)
Definition someUnresolved (db : Db) (lineItems : list LineItem) : Prop :=
  Exists (fun item => Product_findByPk db (productId item) = None) lineItems.

(** price(productId) × quantity of one line item, when the product exists. *)
Definition lineAmount (db : Db) (item : LineItem) : option float :=
  product ← Product_findByPk db (productId item);
  Some (price product * JS.ToNumber (quantity item))%float.

(** "For each line item, fetch the product's current price, multiply by
    quantity, accumulate": the amounts added up from 0 in the order of
    the sequence; undefined when a product is missing. *)
Definition sumOfLines (db : Db) (lineItems : list LineItem) : option float :=
  amounts ← mapM (lineAmount db) lineItems;
  Some (fold_left PrimFloat.add amounts 0%float).

(** "Round the final sum to 2 decimal places", once, at the end. *)
Definition computeTotal (db : Db) (lineItems : list LineItem) : option float :=
  JS.round2 <$> sumOfLines db lineItems.

(** The total with "round-half-away-from-zero semantics". *)
Definition halfAwayTotal (db : Db) (lineItems : list LineItem) : option float :=
  JS.round2_half_away <$> sumOfLines db lineItems.

(** What rounding "per line item" would compute instead. *)
Definition roundedPerLine (db : Db) (lineItems : list LineItem) : option float :=
  amounts ← mapM (lineAmount db) lineItems;
  Some (JS.round2 (fold_left PrimFloat.add (map JS.round2 amounts) 0%float)).

(** No price of the catalogue has its sign bit set. *)
Definition noNegativePrice (db : Db) : Prop :=
  forall id product,
    Product_findByPk db id = Some product -> JS.signbit (price product) = false.

(** Every quantity is present and has its sign bit clear. *)
Definition noNegativeQuantity (lineItems : list LineItem) : Prop :=
  Forall (fun item => exists q, quantity item = Some q /\ JS.signbit q = false)
    lineItems.


(** The answers that the specification calls [InvalidReference]. *)
Definition InvalidReference (r : response) : Prop :=
  r = BadRequest UserDoesNotExist \/ exists pid, r = BadRequest (ProductDoesNotExist pid).

(** The invariant as the specification words it, for an order stored
    when the catalogue was [db]. *)
Definition totalIsHalfAwayRounded (db : Db) (o : Order) : Prop :=
  halfAwayTotal db (products o) = Some (total o).

(** The sign bit on the specification's floats. *)
Definition SFsignbit (x : spec_float) : bool :=
  match x with
  | S754_zero s | S754_infinity s | S754_finite s _ _ => s
  | S754_nan => false
  end.

(* ================================================================== *)
(** ** A sample shop

    Two users, a small catalogue and the order of the specification's
    example: order 7 of user 1 for one unit of product 1. *)

Definition alice : User := mkUser "Alice" "alice@example.com" "secret".
Definition bob : User := mkUser "Bob" "bob@example.com" "hunter2".

Definition item (pid : Z) (q : float) : LineItem := mkLineItem pid (Some q).

Definition catalogue : gmap Z Product :=
  list_to_map
    [ (1, mkProduct "P1" "first" 9.99 1);
      (2, mkProduct "P2" "second" 5.01 1);
      (3, mkProduct "eighth" "an eighth" 0.125 1);
      (4, mkProduct "cent" "one cent" 0.01 1);
      (5, mkProduct "half cent" "half a cent" 0.005 1) ].

Definition order7 : Order := mkOrder 1 [item 1 1] 9.99.

Definition shop : Db :=
  mkDb (list_to_map [(1, alice); (42, bob)]) catalogue {[ 7 := order7 ]} 8.

(** The shop after the price of product 1 has been raised to 12.5. *)
Definition shop_repriced : Db :=
  mkDb (Users shop) (<[1 := mkProduct "P1" "first" 12.5 1]> catalogue)
    (Orders shop) (nextOrderId shop).

(* ================================================================== *)
(** ** What the columns of an order return

    [products] is a JSON column: the array is written with
    [JSON.stringify] and read with [JSON.parse].  A finite number is
    written as the shortest decimal that reads back as the same number,
    except that [-0] is written "0"; NaN and the infinities are written
    [null]; a missing property stays missing.  [total] is a FLOAT
    column, which returns a number as it was written, except that [-0]
    comes back as [0]. *)

(** A quantity as the JSON column returns it. *)
Inductive json :=
| JMissing
| JNull
| JNumber (x : float).

(** [JSON.parse(JSON.stringify(x))] of a number. *)
Definition JSON_number (x : float) : json :=
  match Prim2SF x with
  | S754_finite _ _ _ => JNumber x
  | S754_zero _ => JNumber 0
  | S754_infinity _ | S754_nan => JNull
  end.

(** A number as the FLOAT column returns it. *)
Definition FLOAT_column (x : float) : float :=
  match Prim2SF x with
  | S754_zero _ => 0%float
  | _ => x
  end.

Record StoredItem := mkStoredItem {
  stored_productId : Z;
  stored_quantity : json
}.

Record StoredOrder := mkStoredOrder {
  stored_userId : Z;
  stored_products : list StoredItem;
  stored_total : float
}.

Definition JSON_item (it : LineItem) : StoredItem :=
  mkStoredItem (productId it)
    (match quantity it with
     | Some q => JSON_number q
     | None => JMissing
     end).

(** The row of an order as it is read, for the instance that was
    written. *)
Definition readBack (o : Order) : StoredOrder :=
  mkStoredOrder (userId o) (map JSON_item (products o)) (FLOAT_column (total o)).

(** The stored order under a key. *)
Definition Order_read (db : Db) (id : Z) : option StoredOrder :=
  readBack <$> Order_findByPk db id.

(** [ToNumber] of a stored quantity: [null] is 0, [undefined] is NaN. *)
Definition jsonToNumber (v : json) : float :=
  match v with
  | JMissing => nan
  | JNull => 0%float
  | JNumber x => x
  end.

(** The sum of price × quantity over stored line items, accumulated from
    0 in their order. *)
Definition storedLineAmount (db : Db) (it : StoredItem) : option float :=
  product ← Product_findByPk db (stored_productId it);
  Some (price product * jsonToNumber (stored_quantity it))%float.

Definition storedSum (db : Db) (items : list StoredItem) : option float :=
  amounts ← mapM (storedLineAmount db) items;
  Some (fold_left PrimFloat.add amounts 0%float).

(** The numbers that the JSON column returns as they were written: the
    finite ones other than [-0]. *)
Definition jsonExact (x : float) : bool :=
  match Prim2SF x with
  | S754_finite _ _ _ => true
  | S754_zero s => negb s
  | S754_infinity _ | S754_nan => false
  end.

(** Every quantity that is present is such a number. *)
Definition exactQuantities (lineItems : list LineItem) : Prop :=
  Forall (fun it => match quantity it with
                    | Some q => jsonExact q = true
                    | None => True
                    end) lineItems.

(* ================================================================== *)
(** ** The other endpoints

    The endpoints of users, products and categories, and the reading and
    deleting of orders.  [DELETE /users/:id] and [DELETE /categories/:id]
    are left out: what [destroy] does to the orders of a user and to the
    products of a category is decided by the foreign keys that the
    persistence layer derives from the associations, not by the source
    file.  The listing endpoints ([GET /users], [/products],
    [/categories], [/orders]) are left out: the order of the rows that
    [findAll] returns, and the parsing of the query string of
    [GET /products], are not in the source file. *)

Record Category := mkCategory {
  category_name : string
}.

(** The server's state: the tables of [Db], the table [Category], and
    the counters from which [create] takes the primary keys of users,
    products and categories (AUTOINCREMENT: a key is never given twice). *)
Record Server := mkServer {
  tables : Db;
  Categories : gmap Z Category;
  nextUserId : Z;
  nextProductId : Z;
  nextCategoryId : Z
}.

(** An answer: the status and the JSON sent with it. *)
Inductive reply (A : Type) : Type :=
| R200 (payload : A)
| R201 (payload : A)
| R400 (error : string)
| R404 (error : string).

Arguments R200 {A} payload.
Arguments R201 {A} payload.
Arguments R400 {A} error.
Arguments R404 {A} error.

(** The attributes [id], [name], [email] of a user. *)
Record PublicUser := mkPublicUser {
  public_id : Z;
  public_name : string;
  public_email : string
}.

(** Request bodies; a property is a value of its column's type or is
    missing ([None]). *)
Record UserBody := mkUserBody {
  body_name : option string;
  body_email : option string;
  body_password : option string
}.

Record ProductBody := mkProductBody {
  pbody_name : option string;
  pbody_description : option string;
  pbody_price : option float;
  pbody_categoryId : option Z
}.

Record CategoryBody := mkCategoryBody {
  cbody_name : option string
}.

(** [!v] for a property that is a string or missing. *)
Definition falsyString (v : option string) : bool :=
  match v with
  | None => true
  | Some s => String.eqb s ""
  end.

(** [if (v) field = v]: the value of the field afterwards. *)
Definition assignString (v : option string) (field : string) : string :=
  match v with
  | Some s => if falsyString (Some s) then field else s
  | None => field
  end.

(** [parseFloat(x)] of a number: [x] is written out as a string and read
    back, which returns [x], except that [-0] is written "0". *)
Definition parseFloat (x : float) : float :=
  if (x =? 0)%float then 0%float else x.

Definition Category_findByPk (srv : Server) (id : Z) : option Category :=
  Categories srv !! id.

Definition User_create (srv : Server) (u : User) : Z * Server :=
  let id := nextUserId srv in
  let db := tables srv in
  (id, mkServer (mkDb (<[id := u]> (Users db)) (Products db) (Orders db) (nextOrderId db))
         (Categories srv) (id + 1) (nextProductId srv) (nextCategoryId srv)).

Definition User_save (db : Db) (id : Z) (u : User) : Db :=
  mkDb (<[id := u]> (Users db)) (Products db) (Orders db) (nextOrderId db).

Definition Product_create (srv : Server) (p : Product) : Z * Server :=
  let id := nextProductId srv in
  let db := tables srv in
  (id, mkServer (mkDb (Users db) (<[id := p]> (Products db)) (Orders db) (nextOrderId db))
         (Categories srv) (nextUserId srv) (id + 1) (nextCategoryId srv)).

Definition Product_save (srv : Server) (id : Z) (p : Product) : Server :=
  let db := tables srv in
  mkServer (mkDb (Users db) (<[id := p]> (Products db)) (Orders db) (nextOrderId db))
    (Categories srv) (nextUserId srv) (nextProductId srv) (nextCategoryId srv).

Definition Product_destroy (db : Db) (id : Z) : Db :=
  mkDb (Users db) (delete id (Products db)) (Orders db) (nextOrderId db).

Definition Category_create (srv : Server) (c : Category) : Z * Server :=
  let id := nextCategoryId srv in
  (id, mkServer (tables srv) (<[id := c]> (Categories srv))
         (nextUserId srv) (nextProductId srv) (id + 1)).

Definition Category_save (srv : Server) (id : Z) (c : Category) : Server :=
  mkServer (tables srv) (<[id := c]> (Categories srv))
    (nextUserId srv) (nextProductId srv) (nextCategoryId srv).

Definition Order_destroy (db : Db) (id : Z) : Db :=
  mkDb (Users db) (Products db) (delete id (Orders db)) (nextOrderId db).

(** [POST /users]. *)
Definition post_users (body : UserBody) (srv : Server) : reply PublicUser * Server :=
  match body_name body, body_email body, body_password body with
  | Some name, Some email, Some password =>
      if falsyString (Some name) || falsyString (Some email)
         || falsyString (Some password)
      then (R400 "Name, email, and password are required", srv)
      else
        let (id, srv') := User_create srv (mkUser name email password) in
        (R201 (mkPublicUser id name email), srv')
  | _, _, _ => (R400 "Name, email, and password are required", srv)
  end.

(** [GET /users/:id]. *)
Definition get_users_id (id : Z) (db : Db) : reply PublicUser :=
  match User_findByPk db id with
  | None => R404 "User not found"
  | Some user => R200 (mkPublicUser id (user_name user) (user_email user))
  end.

(** [PUT /users/:id]. *)
Definition put_users_id (id : Z) (body : UserBody) (db : Db) : reply PublicUser * Db :=
  match User_findByPk db id with
  | None => (R404 "User not found", db)
  | Some user =>
      let user' :=
        mkUser (assignString (body_name body) (user_name user))
          (assignString (body_email body) (user_email user))
          (user_password user) in
      (R200 (mkPublicUser id (user_name user') (user_email user')),
       User_save db id user')
  end.

(** [POST /products]. *)
Definition post_products (body : ProductBody) (srv : Server)
  : reply (Z * Product) * Server :=
  match pbody_name body, pbody_description body, pbody_price body,
        pbody_categoryId body with
  | Some name, Some description, Some price, Some categoryId =>
      if falsyString (Some name) || falsyString (Some description)
         || falsy (Some categoryId)
      then (R400 "Name, description, price, and categoryId are required", srv)
      else
        match Category_findByPk srv categoryId with
        | None => (R400 "Category does not exist", srv)
        | Some _ =>
            let product := mkProduct name description (parseFloat price) categoryId in
            let (id, srv') := Product_create srv product in
            (R201 (id, product), srv')
        end
  | _, _, _, _ =>
      (R400 "Name, description, price, and categoryId are required", srv)
  end.

(** [GET /products/:id]. *)
Definition get_products_id (id : Z) (db : Db) : reply (Z * Product) :=
  match Product_findByPk db id with
  | None => R404 "Product not found"
  | Some product => R200 (id, product)
  end.

(** The first block of [PUT /products/:id], on the instance [product]:
    it answers the request (left) or goes on with the instance (right). *)
Definition put_categoryId (srv : Server) (body : ProductBody) (product : Product)
  : reply (Z * Product) + Product :=
  match pbody_categoryId body with
  | Some categoryId =>
      if falsy (Some categoryId) then inr product
      else
        match Category_findByPk srv categoryId with
        | None => inl (R400 "Category does not exist")
        | Some _ =>
            inr (mkProduct (product_name product) (product_description product)
                   (price product) categoryId)
        end
  | None => inr product
  end.

(** [PUT /products/:id]. *)
Definition put_products_id (id : Z) (body : ProductBody) (srv : Server)
  : reply (Z * Product) * Server :=
  match Product_findByPk (tables srv) id with
  | None => (R404 "Product not found", srv)
  | Some product =>
      match put_categoryId srv body product with
      | inl r => (r, srv)
      | inr product1 =>
          let product2 :=
            mkProduct (assignString (pbody_name body) (product_name product1))
              (assignString (pbody_description body) (product_description product1))
              (match pbody_price body with
               | Some price => parseFloat price
               | None => price product1
               end)
              (categoryId product1) in
          (R200 (id, product2), Product_save srv id product2)
      end
  end.

(** [DELETE /products/:id]. *)
Definition delete_products_id (id : Z) (db : Db) : reply string * Db :=
  match Product_findByPk db id with
  | None => (R404 "Product not found", db)
  | Some _ => (R200 "Product deleted successfully"%string, Product_destroy db id)
  end.

(** [POST /categories]. *)
Definition post_categories (body : CategoryBody) (srv : Server)
  : reply (Z * Category) * Server :=
  match cbody_name body with
  | Some name =>
      if falsyString (Some name) then (R400 "Name is required", srv)
      else
        let (id, srv') := Category_create srv (mkCategory name) in
        (R201 (id, mkCategory name), srv')
  | None => (R400 "Name is required", srv)
  end.

(** [GET /categories/:id]. *)
Definition get_categories_id (id : Z) (srv : Server) : reply (Z * Category) :=
  match Category_findByPk srv id with
  | None => R404 "Category not found"
  | Some category => R200 (id, category)
  end.

(** [PUT /categories/:id]. *)
Definition put_categories_id (id : Z) (body : CategoryBody) (srv : Server)
  : reply (Z * Category) * Server :=
  match Category_findByPk srv id with
  | None => (R404 "Category not found", srv)
  | Some category =>
      let category' :=
        mkCategory (assignString (cbody_name body) (category_name category)) in
      (R200 (id, category'), Category_save srv id category')
  end.

(** [GET /orders/:id]. *)
Definition get_orders_id (id : Z) (db : Db) : reply (Z * Order) :=
  match Order_findByPk db id with
  | None => R404 "Order not found"
  | Some order => R200 (id, order)
  end.

(** [DELETE /orders/:id]. *)
Definition delete_orders_id (id : Z) (db : Db) : reply string * Db :=
  match Order_findByPk db id with
  | None => (R404 "Order not found", db)
  | Some _ => (R200 "Order deleted successfully"%string, Order_destroy db id)
  end.

(** A request to the order endpoints that write. *)
Inductive orderRequest :=
| PostOrders (body : Body)
| PutOrders (id : Z) (body : Body)
| DeleteOrders (id : Z).

(** The database after a request. *)
Definition afterRequest (req : orderRequest) (db : Db) : Db :=
  match req with
  | PostOrders body => snd (post_orders body db)
  | PutOrders id body => snd (put_orders id body db)
  | DeleteOrders id => snd (delete_orders_id id db)
  end.

(** The database after a sequence of requests. *)
Definition afterRequests (reqs : list orderRequest) (db : Db) : Db :=
  fold_left (fun db req => afterRequest req db) reqs db.

(** The keys of the stored orders are below the counter. *)
Definition ordersBelowCounter (db : Db) : Prop :=
  forall id, is_Some (Order_findByPk db id) -> id < nextOrderId db.

(** The keys of the stored products are below the counter. *)
Definition productsBelowCounter (srv : Server) : Prop :=
  forall id, is_Some (Product_findByPk (tables srv) id) -> id < nextProductId srv.

(** A request to any of the endpoints that write. *)
Inductive request :=
| PostUsers (body : UserBody)
| PutUsers (id : Z) (body : UserBody)
| PostProducts (body : ProductBody)
| PutProducts (id : Z) (body : ProductBody)
| DeleteProducts (id : Z)
| PostCategories (body : CategoryBody)
| PutCategories (id : Z) (body : CategoryBody)
| Orders_ (req : orderRequest).

(** The server with its tables of [Db] replaced. *)
Definition withTables (srv : Server) (db : Db) : Server :=
  mkServer db (Categories srv) (nextUserId srv) (nextProductId srv)
    (nextCategoryId srv).

(** The server after a request. *)
Definition serve (srv : Server) (req : request) : Server :=
  match req with
  | PostUsers body => snd (post_users body srv)
  | PutUsers id body => withTables srv (snd (put_users_id id body (tables srv)))
  | PostProducts body => snd (post_products body srv)
  | PutProducts id body => snd (put_products_id id body srv)
  | DeleteProducts id => withTables srv (snd (delete_products_id id (tables srv)))
  | PostCategories body => snd (post_categories body srv)
  | PutCategories id body => snd (put_categories_id id body srv)
  | Orders_ req => withTables srv (afterRequest req (tables srv))
  end.

(** Every stored order names an existing user. *)
Definition ordersHaveUsers (db : Db) : Prop :=
  forall id o,
    Order_findByPk db id = Some o -> is_Some (User_findByPk db (userId o)).

(** Every stored product names an existing category. *)
Definition productsHaveCategories (srv : Server) : Prop :=
  forall id p,
    Product_findByPk (tables srv) id = Some p ->
    is_Some (Category_findByPk srv (categoryId p)).

(** The answer is a refusal: status 400 or 404. *)
Definition refused {A : Type} (r : reply A) : Prop :=
  match r with
  | R400 _ | R404 _ => True
  | R200 _ | R201 _ => False
  end.

(** The sample shop as a server, with one category. *)
Definition server : Server :=
  mkServer shop {[ 1 := mkCategory "general" ]} 43 6 2.

(** Every product of a given sequence is found in a given database. *)
Ltac all_found := repeat constructor; vm_compute; eauto.

(* ================================================================== *)
(** ** Facts about binary64 arithmetic *)

Example Math_round_samples :
  map JS.Math_round [2.5; 3.5; -2.5; -3.5; 0.49999999999999994; -0.5; 1234.0; -0.2; 0.7]%float
  = [3; 4; -2; -3; 0; -0; 1234; -0; 1]%float.
Proof. vm_compute. reflexivity. Qed.

Example round_half_away_samples :
  map JS.round_half_away [2.5; 3.5; -2.5; -3.5; 0.49999999999999994; -0.5; 1234.0; -0.2; 0.7]%float
  = [3; 4; -3; -4; 0; -1; 1234; -0; 1]%float.
Proof. vm_compute. reflexivity. Qed.

Section SpecFloatFacts.

(** A rounded result keeps the sign it was given. *)
Lemma binary_round_aux_sign s m e l :
  SFsignbit (binary_round_aux prec emax s m e l) = s \/
  binary_round_aux prec emax s m e l = S754_nan.
Proof.
  unfold binary_round_aux.
  destruct (shr_fexp prec emax m e l) as [mrs' e'].
  destruct (shr_fexp prec emax _ e' loc_Exact) as [mrs'' e''].
  destruct (shr_m mrs''); [left; reflexivity| |right; reflexivity].
  destruct (e'' <=? emax - prec)%Z; left; reflexivity.
Qed.

Lemma SFmul_signbit x y :
  SFsignbit x = false -> SFsignbit y = false ->
  SFsignbit (SFmul prec emax x y) = false.
Proof.
  destruct x as [sx|sx| |sx mx ex], y as [sy|sy| |sy my ey];
    intros Hx Hy; simpl in Hx, Hy; subst; try reflexivity.
  change (SFmul prec emax (S754_finite false mx ex) (S754_finite false my ey))
    with (binary_round_aux prec emax false (Z.pos (mx * my)) (ex + ey) loc_Exact).
  destruct (binary_round_aux_sign false (Z.pos (mx * my)) (ex + ey) loc_Exact)
    as [H|H]; rewrite H; reflexivity.
Qed.

Lemma SFadd_signbit x y :
  SFsignbit x = false -> SFsignbit y = false ->
  SFsignbit (SFadd prec emax x y) = false.
Proof.
  destruct x as [sx|sx| |sx mx ex], y as [sy|sy| |sy my ey];
    intros Hx Hy; simpl in Hx, Hy; subst; try reflexivity.
  unfold SFadd, cond_Zopp, binary_normalize, Z.add, binary_round.
  destruct (shl_align _ _ _) as [mz ez].
  destruct (binary_round_aux_sign false (Z.pos mz) ez loc_Exact)
    as [H|H]; rewrite H; reflexivity.
Qed.

Lemma SFadd_comm x y : SFadd prec emax x y = SFadd prec emax y x.
Proof.
  destruct x as [[]|[]| |sx mx ex], y as [[]|[]| |sy my ey];
    try reflexivity.
  unfold SFadd. rewrite (Z.min_comm ey ex). f_equal. apply Z.add_comm.
Qed.

(** Starting from +0, the first two addends can be exchanged. *)
Lemma SFadd_zero_swap x y :
  SFadd prec emax (SFadd prec emax (S754_zero false) x) y =
  SFadd prec emax (SFadd prec emax (S754_zero false) y) x.
Proof.
  destruct x as [[]|[]| |sx mx ex], y as [[]|[]| |sy my ey];
    try reflexivity; apply SFadd_comm.
Qed.

End SpecFloatFacts.

Lemma signbit_SF x : JS.signbit x = SFsignbit (Prim2SF x).
Proof. reflexivity. Qed.

Lemma signbit_mul x y :
  JS.signbit x = false -> JS.signbit y = false -> JS.signbit (x * y) = false.
Proof. rewrite !signbit_SF, mul_spec. apply SFmul_signbit. Qed.

Lemma signbit_add x y :
  JS.signbit x = false -> JS.signbit y = false -> JS.signbit (x + y) = false.
Proof. rewrite !signbit_SF, add_spec. apply SFadd_signbit. Qed.

Lemma float_add_comm (x y : float) : (x + y = y + x)%float.
Proof. apply Prim2SF_inj. rewrite !add_spec. apply SFadd_comm. Qed.

Lemma float_add_zero_swap (x y : float) : (0 + x + y = 0 + y + x)%float.
Proof.
  apply Prim2SF_inj. rewrite !add_spec.
  change (Prim2SF 0) with (S754_zero false). apply SFadd_zero_swap.
Qed.

Lemma float_neq (x y : float) : Prim2SF x <> Prim2SF y -> x <> y.
Proof. congruence. Qed.

Lemma Some_float_neq (x y : float) : Prim2SF x <> Prim2SF y -> Some x <> Some y.
Proof. congruence. Qed.

(** On a number whose sign bit is clear the two roundings agree. *)
(** [nearest_ties_up num den] is the integer n with
    n - 1/2 <= num/den < n + 1/2. *)
Lemma nearest_ties_up_spec num den :
  0 < den ->
  2 * den * JS.nearest_ties_up num den - den <= 2 * num
  < 2 * den * JS.nearest_ties_up num den + den.
Proof.
  intros Hden. unfold JS.nearest_ties_up.
  pose proof (Z.div_mod (2 * num + den) (2 * den)) as Hdm.
  pose proof (Z.mod_pos_bound (2 * num + den) (2 * den)) as Hb.
  lia.
Qed.

Lemma Math_round_half_away x :
  JS.signbit x = false -> JS.Math_round x = JS.round_half_away x.
Proof.
  unfold JS.signbit, JS.Math_round, JS.round_half_away.
  destruct (Prim2SF x) as [s|s| |s m e]; try reflexivity.
  intros ->. destruct (0 <=? e) eqn:He; [reflexivity|].
  apply Z.leb_gt in He.
  cbv zeta. rewrite Z.abs_eq; [reflexivity|].
  assert (0 < 2 ^ (- e)) by (apply Z.pow_pos_nonneg; lia).
  unfold JS.nearest_ties_up. apply Z.div_pos; lia.
Qed.

Lemma round2_half_away x :
  JS.signbit x = false -> JS.round2 x = JS.round2_half_away x.
Proof.
  intros Hx. unfold JS.round2, JS.round2_half_away.
  rewrite Math_round_half_away; [reflexivity|].
  apply signbit_mul; [exact Hx|reflexivity].
Qed.

(* ================================================================== *)
(** ** Facts about the validation loop and the pricing loop *)

Lemma firstMissingProduct_None db l :
  firstMissingProduct db l = None <-> allResolve db l.
Proof.
  unfold allResolve. induction l as [|it l IH]; simpl.
  - split; [constructor|reflexivity].
  - destruct (Product_findByPk db (productId it)) as [p|] eqn:Hp.
    + rewrite IH. split.
      * intros H. constructor; [eauto|exact H].
      * intros H. inversion H; assumption.
    + split; [discriminate|].
      intros H. inversion H as [|? ? [p Hp'] ?]. congruence.
Qed.

(** The product named in the answer is the first one that is missing. *)
Lemma firstMissingProduct_Some db l pid :
  firstMissingProduct db l = Some pid ->
  exists before it after,
    l = before ++ it :: after /\ allResolve db before /\
    productId it = pid /\ Product_findByPk db pid = None.
Proof.
  induction l as [|it l IH]; simpl; [discriminate|].
  destruct (Product_findByPk db (productId it)) as [p|] eqn:Hp.
  - intros H. destruct (IH H) as (before & it' & after & -> & Hb & Hid & Hnone).
    exists (it :: before), it', after. repeat split; try assumption.
    constructor; [eauto|exact Hb].
  - intros [= <-]. exists [], it, l. repeat split; [constructor|exact Hp].
Qed.

Lemma firstMissingProduct_is_Some db l :
  someUnresolved db l -> is_Some (firstMissingProduct db l).
Proof.
  unfold someUnresolved. induction 1 as [it l Hit|it l _ IH]; simpl.
  - rewrite Hit. eauto.
  - destruct (Product_findByPk db (productId it)); eauto.
Qed.

(** When every product is found, the loop of [calculateOrderTotal] adds
    up the line amounts. *)
Lemma fold_addLine_amounts db l :
  allResolve db l ->
  exists amounts,
    mapM (lineAmount db) l = Some amounts /\
    forall acc, fold_left (addLine db) l acc = fold_left PrimFloat.add amounts acc.
Proof.
  unfold allResolve. induction 1 as [|it l [p Hp] _ (amounts & Hm & Hf)].
  - exists []. split; [reflexivity|]. intros acc. reflexivity.
  - exists ((price p * JS.ToNumber (quantity it))%float :: amounts). split.
    + change (mapM (lineAmount db) (it :: l))
        with (y ← lineAmount db it; k ← mapM (lineAmount db) l; Some (y :: k)).
      rewrite Hm. unfold lineAmount. rewrite Hp. reflexivity.
    + intros acc.
      change (fold_left (addLine db) (it :: l) acc)
        with (fold_left (addLine db) l (addLine db acc it)).
      rewrite Hf. unfold addLine. rewrite Hp. reflexivity.
Qed.

Lemma calculateOrderTotal_computeTotal db l :
  allResolve db l -> computeTotal db l = Some (calculateOrderTotal db l).
Proof.
  intros H. destruct (fold_addLine_amounts db l H) as (amounts & Hm & Hf).
  unfold computeTotal, sumOfLines, calculateOrderTotal. rewrite Hm. cbn.
  rewrite Hf. reflexivity.
Qed.

(** Amounts without a sign bit add up to a sum without a sign bit. *)
Lemma fold_add_signbit amounts : forall acc,
  JS.signbit acc = false ->
  Forall (fun a => JS.signbit a = false) amounts ->
  JS.signbit (fold_left PrimFloat.add amounts acc) = false.
Proof.
  induction amounts as [|a amounts IH]; intros acc Hacc Hall; [exact Hacc|].
  inversion Hall; subst. cbn. apply IH; [apply signbit_add|]; assumption.
Qed.

Lemma sumOfLines_signbit db l s :
  noNegativePrice db -> noNegativeQuantity l ->
  sumOfLines db l = Some s -> JS.signbit s = false.
Proof.
  intros Hprice Hqty. unfold sumOfLines.
  destruct (mapM (lineAmount db) l) as [amounts|] eqn:Hm; [|discriminate].
  cbn. intros [= <-]. apply fold_add_signbit; [reflexivity|].
  revert amounts Hm. induction Hqty as [|it l (q & Hq & Hs) _ IH];
    intros amounts Hm.
  - injection Hm as <-. constructor.
  - change (mapM (lineAmount db) (it :: l))
      with (y ← lineAmount db it; k ← mapM (lineAmount db) l; Some (y :: k)) in Hm.
    destruct (mapM (lineAmount db) l) as [rest|];
      [|destruct (lineAmount db it); discriminate].
    unfold lineAmount in Hm.
    destruct (Product_findByPk db (productId it)) as [p|] eqn:Hp; [|discriminate].
    cbn in Hm. injection Hm as <-. constructor; [|apply IH; reflexivity].
    rewrite Hq. apply signbit_mul; [eapply Hprice; eassumption|exact Hs].
Qed.

(* ================================================================== *)
(** ** What a successful request has done *)

Lemma post_orders_Created body db id o db' :
  post_orders body db = (Created id o, db') ->
  exists uid l,
    body_userId body = Some uid /\ uid <> 0 /\ is_Some (User_findByPk db uid) /\
    body_products body = Some l /\ allResolve db l /\
    id = nextOrderId db /\
    o = mkOrder uid l (calculateOrderTotal db l) /\
    db' = snd (Order_create db o).
Proof.
  unfold post_orders.
  destruct (body_userId body) as [uid|]; [|discriminate].
  destruct (body_products body) as [l|]; [|discriminate].
  unfold falsy. destruct (uid =? 0) eqn:Huid; [discriminate|].
  destruct (User_findByPk db uid) as [u|] eqn:Hu; [|discriminate].
  destruct (firstMissingProduct db l) as [pid|] eqn:Hl; [discriminate|].
  cbn. intros [= <- <- <-].
  exists uid, l. apply Z.eqb_neq in Huid. apply firstMissingProduct_None in Hl.
  repeat split; eauto.
Qed.

Lemma put_orders_Ok id body db id' o' db' :
  put_orders id body db = (Ok id' o', db') ->
  exists o,
    Order_findByPk db id = Some o /\ id' = id /\ db' = Order_save db id o' /\
    userId o' = (if falsy (body_userId body) then userId o
                 else default (userId o) (body_userId body)) /\
    match body_products body with
    | Some l =>
        allResolve db l /\ products o' = l /\ total o' = calculateOrderTotal db l
    | None => products o' = products o /\ total o' = total o
    end.
Proof.
  unfold put_orders.
  destruct (Order_findByPk db id) as [o|] eqn:Ho; [|discriminate].
  unfold put_userId, put_products.
  destruct (body_userId body) as [uid|]; cbn [falsy default].
  - destruct (uid =? 0) eqn:Huid.
    + destruct (body_products body) as [l|].
      * destruct (firstMissingProduct db l) eqn:Hl; [discriminate|].
        intros [= <- <- <-]. apply firstMissingProduct_None in Hl.
        exists o. repeat split; auto.
      * intros [= <- <- <-]. exists o. repeat split; auto.
    + destruct (User_findByPk db uid); [|discriminate].
      destruct (body_products body) as [l|].
      * destruct (firstMissingProduct db l) eqn:Hl; [discriminate|].
        intros [= <- <- <-]. apply firstMissingProduct_None in Hl.
        exists o. repeat split; auto.
      * intros [= <- <- <-]. exists o. repeat split; auto.
  - destruct (body_products body) as [l|].
    + destruct (firstMissingProduct db l) eqn:Hl; [discriminate|].
      intros [= <- <- <-]. apply firstMissingProduct_None in Hl.
      exists o. repeat split; auto.
    + intros [= <- <- <-]. exists o. repeat split; auto.
Qed.

Lemma Order_create_lookup db o :
  Order_findByPk (snd (Order_create db o)) (nextOrderId db) = Some o.
Proof. unfold Order_findByPk, Order_create. cbn. apply lookup_insert_eq. Qed.

Lemma Order_save_lookup db id o :
  Order_findByPk (Order_save db id o) id = Some o.
Proof. unfold Order_findByPk, Order_save. cbn. apply lookup_insert_eq. Qed.

(** The total of a list all of whose products are found. *)
Lemma calculateOrderTotal_priced db l :
  allResolve db l ->
  exists s,
    sumOfLines db l = Some s /\
    calculateOrderTotal db l = JS.round2 s /\
    (JS.signbit s = false -> calculateOrderTotal db l = JS.round2_half_away s) /\
    (noNegativePrice db -> noNegativeQuantity l -> JS.signbit s = false).
Proof.
  intros H. pose proof (calculateOrderTotal_computeTotal db l H) as Hc.
  unfold computeTotal in Hc.
  destruct (sumOfLines db l) as [s|] eqn:Hs; [|discriminate].
  assert (Heq : calculateOrderTotal db l = JS.round2 s)
    by (change (Some (JS.round2 s) = Some (calculateOrderTotal db l)) in Hc;
        congruence).
  exists s. repeat split.
  - exact Heq.
  - intros Hsign. rewrite Heq. apply round2_half_away. exact Hsign.
  - intros Hp Hq. eapply sumOfLines_signbit; eassumption.
Qed.

(* ================================================================== *)
(** ** The stored total (C1) *)

(** C1, as stated, fails: "for every order persisted by a successful
    createOrder or updateOrder, the stored total equals the sum over the
    stored line items of price × quantity, rounded to 2 decimal places
    with round-half-away-from-zero semantics".  An order of -1 unit of
    product 3 (price 0.125) is accepted and stored with total
    Math.round(-12.5) / 100 = -0.12; rounding the tie away from zero gives
    -0.13. *)
Lemma stored_total_not_half_away :
  let request := mkBody (Some 1) (Some [item 3 (-1)]) None in
  let stored := mkOrder 1 [item 3 (-1)] (-0.12) in
  post_orders request shop = (Created 8 stored, snd (Order_create shop stored)) /\
  Order_findByPk (snd (post_orders request shop)) 8 = Some stored /\
  halfAwayTotal shop (products stored) = Some (-0.13)%float /\
  ~ totalIsHalfAwayRounded shop stored.
Proof.
  cbv zeta. split; [|split; [|split]]; try (vm_compute; reflexivity).
  unfold totalIsHalfAwayRounded.
  replace (halfAwayTotal shop _) with (Some (-0.13)%float)
    by (vm_compute; reflexivity).
  apply Some_float_neq. vm_compute. discriminate.
Qed.

(** A number that the JSON column returns as written is read back as
    itself, and so is the amount of its line. *)
Lemma JSON_number_exact q : jsonExact q = true -> JSON_number q = JNumber q.
Proof.
  unfold jsonExact, JSON_number.
  destruct (Prim2SF q) as [[]|[]| |sg m e] eqn:E; try discriminate; intros _;
    try reflexivity.
  f_equal. apply Prim2SF_inj. rewrite E. reflexivity.
Qed.

Lemma storedLineAmount_exact db it :
  match quantity it with Some q => jsonExact q = true | None => True end ->
  storedLineAmount db (JSON_item it) = lineAmount db it.
Proof.
  unfold storedLineAmount, lineAmount, JSON_item. cbn [stored_productId stored_quantity].
  destruct (quantity it) as [q|]; [|reflexivity].
  intros Hq. rewrite (JSON_number_exact q Hq). reflexivity.
Qed.

Lemma storedSum_exact db l :
  exactQuantities l -> storedSum db (map JSON_item l) = sumOfLines db l.
Proof.
  intros H. unfold storedSum, sumOfLines.
  replace (mapM (storedLineAmount db) (map JSON_item l))
    with (mapM (lineAmount db) l); [reflexivity|].
  induction H as [|it l Hit _ IH]; [reflexivity|].
  change (mapM (lineAmount db) (it :: l))
    with (y ← lineAmount db it; k ← mapM (lineAmount db) l; Some (y :: k)).
  change (mapM (storedLineAmount db) (map JSON_item (it :: l)))
    with (y ← storedLineAmount db (JSON_item it);
          k ← mapM (storedLineAmount db) (map JSON_item l); Some (y :: k)).
  rewrite <- IH, (storedLineAmount_exact db it Hit). reflexivity.
Qed.

(** C1, amended: for an order stored by a successful createOrder, or by
    a successful updateOrder whose body carries a products array, in
    which every quantity that is present is a finite number other than
    -0 (the numbers that the JSON column returns as they were written),
    the stored total is Math.round(S·100)/100, a total of -0 being stored
    as 0, where S is the binary64 sum of price × quantity over the stored
    line items, accumulated in their order at the prices of the catalogue
    at that write; this is the total rounded half away from zero whenever
    S is not negative, in particular when no price and no quantity is
    negative.  After a successful updateOrder without a products array
    the stored products and the stored total are those that the order
    had. *)
Theorem stored_total_is_rounded_sum db body id o db' :
  post_orders body db = (Created id o, db') \/
  put_orders id body db = (Ok id o, db') ->
  exists row,
    Order_read db' id = Some row /\
    match body_products body with
    | Some l =>
        exactQuantities l ->
        exists s,
          storedSum db (stored_products row) = Some s /\
          stored_total row = FLOAT_column (JS.round2 s) /\
          (JS.signbit s = false ->
           stored_total row = FLOAT_column (JS.round2_half_away s)) /\
          (noNegativePrice db -> noNegativeQuantity l -> JS.signbit s = false)
    | None =>
        exists before,
          Order_read db id = Some before /\
          stored_products row = stored_products before /\
          stored_total row = stored_total before
    end.
Proof.
  assert (Hpriced : forall l, allResolve db l -> exactQuantities l ->
            exists s,
              storedSum db (map JSON_item l) = Some s /\
              FLOAT_column (calculateOrderTotal db l) = FLOAT_column (JS.round2 s) /\
              (JS.signbit s = false ->
               FLOAT_column (calculateOrderTotal db l)
               = FLOAT_column (JS.round2_half_away s)) /\
              (noNegativePrice db -> noNegativeQuantity l -> JS.signbit s = false)).
  { intros l Hres Hex.
    destruct (calculateOrderTotal_priced db l Hres) as (s & Hs & Ht & Hh & Hn).
    exists s. rewrite (storedSum_exact db l Hex). repeat split.
    - exact Hs.
    - rewrite Ht. reflexivity.
    - intros Hsign. rewrite (Hh Hsign). reflexivity.
    - exact Hn. }
  intros [H|H].
  - apply post_orders_Created in H.
    destruct H as (uid & l & _ & _ & _ & Hl & Hres & -> & -> & ->).
    exists (readBack (mkOrder uid l (calculateOrderTotal db l))). split.
    + unfold Order_read. rewrite Order_create_lookup. reflexivity.
    + rewrite Hl. intros Hex. apply Hpriced; assumption.
  - apply put_orders_Ok in H.
    destruct H as (before & Hb & _ & -> & _ & Hp).
    exists (readBack o). split.
    + unfold Order_read. rewrite Order_save_lookup. reflexivity.
    + destruct (body_products body) as [l|].
      * destruct Hp as (Hres & Hprod & Htot). intros Hex.
        unfold readBack. cbn [stored_products stored_total].
        rewrite Hprod, Htot. apply Hpriced; assumption.
      * exists (readBack before). unfold Order_read. rewrite Hb.
        destruct Hp as [Hprod Htot]. unfold readBack.
        cbn [stored_products stored_total]. rewrite Hprod, Htot.
        repeat split; reflexivity.
Qed.

(** The specification's example: order 7 updated to three units of
    product 1 is stored with total 29.97. *)
Lemma stored_total_is_rounded_sum_witness :
  let request := mkBody None (Some [item 1 3]) None in
  let written := mkOrder 1 [item 1 3] 29.97 in
  put_orders 7 request shop = (Ok 7 written, Order_save shop 7 written) /\
  exactQuantities [item 1 3] /\
  exists row,
    Order_read (Order_save shop 7 written) 7 = Some row /\
    exists s,
      storedSum shop (stored_products row) = Some s /\
      stored_total row = FLOAT_column (JS.round2 s) /\
      (JS.signbit s = false ->
       stored_total row = FLOAT_column (JS.round2_half_away s)) /\
      (noNegativePrice shop -> noNegativeQuantity [item 1 3] -> JS.signbit s = false).
Proof.
  cbv zeta.
  assert (H : put_orders 7 (mkBody None (Some [item 1 3]) None) shop
              = (Ok 7 (mkOrder 1 [item 1 3] 29.97),
                 Order_save shop 7 (mkOrder 1 [item 1 3] 29.97)))
    by (vm_compute; reflexivity).
  assert (Hex : exactQuantities [item 1 3]) by (repeat constructor).
  split; [exact H|]. split; [exact Hex|].
  destruct (stored_total_is_rounded_sum shop _ 7 _ _ (or_intror H))
    as (row & Hrow & Hsum).
  exists row. split; [exact Hrow|]. exact (Hsum Hex).
Defined.

(** Why the quantities are required to be such numbers: in a body, 1e999
    is the number Infinity.  An order of that many units of product 1 is
    written with total Infinity; the JSON column returns the quantity as
    [null], with which the stored line items add up to 0. *)
Example infinite_quantity_is_stored_as_null :
  let request := mkBody (Some 1) (Some [item 1 infinity]) None in
  let written := mkOrder 1 [item 1 infinity] infinity in
  fst (post_orders request shop) = Created 8 written /\
  readBack written = mkStoredOrder 1 [mkStoredItem 1 JNull] infinity /\
  storedSum shop (stored_products (readBack written)) = Some 0%float.
Proof. cbv zeta. repeat split; vm_compute; reflexivity. Qed.

(** A total of -0 is stored as 0: an order of -1 unit of product 5
    (price 0.005) is written with total Math.round(-0.5) / 100 = -0. *)
Example negative_zero_total_is_stored_as_zero :
  let request := mkBody (Some 1) (Some [item 5 (-1)]) None in
  let written := mkOrder 1 [item 5 (-1)] (-0) in
  fst (post_orders request shop) = Created 8 written /\
  readBack written = mkStoredOrder 1 [mkStoredItem 5 (JNumber (-1))] 0.
Proof. cbv zeta. split; vm_compute; reflexivity. Qed.

(* ================================================================== *)
(** ** The pricing loop (C7, C8) *)

(** On its own, [calculateOrderTotal] leaves out a line whose product is
    missing; the handlers do not call it with one. *)
Example calculateOrderTotal_skips_missing :
  calculateOrderTotal shop [item 1 1; item 999 5] = 9.99%float.
Proof. vm_compute. reflexivity. Qed.

(** C7: when every productId resolves, [calculateOrderTotal] adds up
    price × quantity over the line items and rounds once, the final sum,
    to 2 decimals; it is the specification's [computeTotal].  It does not
    round per line item: two units at half a cent each cost 0.01, where
    the rounded lines would add up to 0.02. *)
Theorem calculateOrderTotal_rounds_once :
  (forall db l,
     allResolve db l ->
     exists amounts,
       mapM (lineAmount db) l = Some amounts /\
       calculateOrderTotal db l
       = JS.round2 (fold_left PrimFloat.add amounts 0%float) /\
       computeTotal db l = Some (calculateOrderTotal db l)) /\
  (let l := [item 5 1; item 5 1] in
   allResolve shop l /\
   calculateOrderTotal shop l = 0.01%float /\
   roundedPerLine shop l = Some 0.02%float /\
   roundedPerLine shop l <> Some (calculateOrderTotal shop l)).
Proof.
  split.
  - intros db l H. destruct (fold_addLine_amounts db l H) as (amounts & Hm & Hf).
    exists amounts. split; [exact Hm|]. split.
    + unfold calculateOrderTotal, JS.round2. rewrite Hf. reflexivity.
    + apply calculateOrderTotal_computeTotal. exact H.
  - cbv zeta. split; [|split; [|split]]; try (vm_compute; reflexivity).
    + all_found.
    + replace (roundedPerLine shop _) with (Some 0.02%float)
        by (vm_compute; reflexivity).
      replace (calculateOrderTotal shop _) with 0.01%float
        by (vm_compute; reflexivity).
      apply Some_float_neq. vm_compute. discriminate.
Qed.

(** The specification's example: two units of P1 (9.99) and three of P2
    (5.01) cost 35.01. *)
Lemma calculateOrderTotal_rounds_once_witness :
  let l := [item 1 2; item 2 3] in
  allResolve shop l /\
  exists amounts,
    mapM (lineAmount shop) l = Some amounts /\
    calculateOrderTotal shop l
    = JS.round2 (fold_left PrimFloat.add amounts 0%float) /\
    computeTotal shop l = Some (calculateOrderTotal shop l).
Proof.
  cbv zeta.
  assert (H : allResolve shop [item 1 2; item 2 3])
    by all_found.
  split; [exact H|].
  exact (proj1 calculateOrderTotal_rounds_once shop [item 1 2; item 2 3] H).
Defined.

(** C8, as stated, fails: "for every valid line-item sequence and every
    permutation of it, computeTotal returns the same result".  One unit
    of product 3 (0.125) and two of product 4 (0.01) cost 0.15 in this
    order and 0.14 with product 3 last: the binary64 sums are
    0.14500000000000002 and 0.14499999999999999. *)
Lemma calculateOrderTotal_depends_on_order :
  let l := [item 3 1; item 4 1; item 4 1] in
  let l' := [item 4 1; item 4 1; item 3 1] in
  Permutation l l' /\ allResolve shop l /\ allResolve shop l' /\
  calculateOrderTotal shop l = 0.15%float /\
  calculateOrderTotal shop l' = 0.14%float /\
  calculateOrderTotal shop l <> calculateOrderTotal shop l'.
Proof.
  cbv zeta. split; [|split; [|split; [|split; [|split]]]];
    try (vm_compute; reflexivity).
  - apply (Permutation_cons_append [item 4 1; item 4 1] (item 3 1)).
  - all_found.
  - all_found.
  - apply float_neq. vm_compute. discriminate.
Qed.

(** C8, amended: exchanging the first two line items of a sequence does
    not change the result of [calculateOrderTotal], binary64 addition
    being commutative.  (Other permutations can change it: the sum is
    accumulated in sequence order, and binary64 addition is not
    associative.) *)
Theorem calculateOrderTotal_swap_first_two db a b rest :
  calculateOrderTotal db (a :: b :: rest)
  = calculateOrderTotal db (b :: a :: rest).
Proof.
  unfold calculateOrderTotal.
  change (fold_left (addLine db) (a :: b :: rest) 0%float)
    with (fold_left (addLine db) rest (addLine db (addLine db 0%float a) b)).
  change (fold_left (addLine db) (b :: a :: rest) 0%float)
    with (fold_left (addLine db) rest (addLine db (addLine db 0%float b) a)).
  replace (addLine db (addLine db 0%float b) a)
    with (addLine db (addLine db 0%float a) b); [reflexivity|].
  unfold addLine.
  destruct (Product_findByPk db (productId a)), (Product_findByPk db (productId b));
    try reflexivity.
  apply float_add_zero_swap.
Qed.

(* ================================================================== *)
(** ** Validation (C2, C3, C4) *)

Lemma post_orders_resolved db uid l t :
  uid <> 0 -> is_Some (User_findByPk db uid) -> allResolve db l ->
  post_orders (mkBody (Some uid) (Some l) t) db
  = (Created (nextOrderId db) (mkOrder uid l (calculateOrderTotal db l)),
     snd (Order_create db (mkOrder uid l (calculateOrderTotal db l)))).
Proof.
  intros Huid [u Hu] Hl. unfold post_orders. cbn [body_userId body_products falsy].
  apply Z.eqb_neq in Huid. rewrite Huid, Hu.
  apply firstMissingProduct_None in Hl. rewrite Hl. reflexivity.
Qed.


(** An answer other than 201 or 200 leaves the database as it was. *)
Lemma post_orders_refused body db e db' :
  post_orders body db = (BadRequest e, db') -> db' = db.
Proof.
  unfold post_orders.
  destruct (body_userId body) as [uid|]; [|congruence].
  destruct (body_products body) as [l|]; [|congruence].
  destruct (falsy (Some uid)); [congruence|].
  destruct (User_findByPk db uid); [|congruence].
  destruct (firstMissingProduct db l); [congruence|].
  cbn. discriminate.
Qed.

Lemma put_orders_refused id body db e db' :
  put_orders id body db = (BadRequest e, db') -> db' = db.
Proof.
  unfold put_orders.
  destruct (Order_findByPk db id) as [o|]; [|discriminate].
  destruct (put_userId db body o) as [r|o1]; [congruence|].
  destruct (put_products db body o1) as [r|o2]; [congruence|discriminate].
Qed.

(** C2: when some productId of the sequence does not resolve, the
    callers of [calculateOrderTotal] answer 400 with the message naming
    the first productId that is not found, before any total is computed
    and without a write: createOrder for an existing user, updateOrder
    for an existing order whose body has no userId or that of an existing
    user. *)
Theorem missing_product_rejected db l :
  someUnresolved db l ->
  exists pid before it after,
    l = before ++ it :: after /\ allResolve db before /\
    productId it = pid /\ Product_findByPk db pid = None /\
    (forall uid t,
       uid <> 0 -> is_Some (User_findByPk db uid) ->
       post_orders (mkBody (Some uid) (Some l) t) db
       = (BadRequest (ProductDoesNotExist pid), db)) /\
    (forall id uid t,
       is_Some (Order_findByPk db id) ->
       falsy uid = true \/ (exists n, uid = Some n /\ is_Some (User_findByPk db n)) ->
       put_orders id (mkBody uid (Some l) t) db
       = (BadRequest (ProductDoesNotExist pid), db)).
Proof.
  intros H. destruct (firstMissingProduct_is_Some db l H) as [pid Hpid].
  destruct (firstMissingProduct_Some db l pid Hpid)
    as (before & it & after & Hl & Hb & Hid & Hnone).
  exists pid, before, it, after. repeat split; try assumption.
  - intros uid t Huid [u Hu]. unfold post_orders.
    cbn [body_userId body_products falsy].
    apply Z.eqb_neq in Huid. rewrite Huid, Hu, Hpid. reflexivity.
  - intros id uid t [o Ho] Hu. unfold put_orders. rewrite Ho.
    assert (Hstep : exists o1, put_userId db (mkBody uid (Some l) t) o = inr o1).
    { unfold put_userId. cbn [body_userId].
      destruct Hu as [Hf|(n & -> & [u Hu])].
      - destruct uid as [n|]; [|eauto]. rewrite Hf. eauto.
      - destruct (falsy (Some n)); [eauto|]. rewrite Hu. eauto. }
    destruct Hstep as [o1 ->]. unfold put_products. cbn [body_products].
    rewrite Hpid. reflexivity.
Qed.

(** The specification's example: an order of user 42 for product 999,
    which does not exist. *)
Lemma missing_product_rejected_witness :
  someUnresolved shop [item 999 1] /\
  exists pid before it after,
    [item 999 1] = before ++ it :: after /\ allResolve shop before /\
    productId it = pid /\ Product_findByPk shop pid = None /\
    (forall uid t,
       uid <> 0 -> is_Some (User_findByPk shop uid) ->
       post_orders (mkBody (Some uid) (Some [item 999 1]) t) shop
       = (BadRequest (ProductDoesNotExist pid), shop)) /\
    (forall id uid t,
       is_Some (Order_findByPk shop id) ->
       falsy uid = true \/ (exists n, uid = Some n /\ is_Some (User_findByPk shop n)) ->
       put_orders id (mkBody uid (Some [item 999 1]) t) shop
       = (BadRequest (ProductDoesNotExist pid), shop)).
Proof.
  assert (H : someUnresolved shop [item 999 1])
    by (constructor; vm_compute; reflexivity).
  split; [exact H|]. exact (missing_product_rejected shop [item 999 1] H).
Defined.




(** C4: when createOrder or updateOrder answers that the user or a
    product does not exist, the database after the request is the
    database before it; the userId that an update has already set on its
    instance of the order is not written. *)
Theorem invalid_reference_no_write body db id r db' :
  post_orders body db = (r, db') \/ put_orders id body db = (r, db') ->
  InvalidReference r ->
  db' = db.
Proof.
  intros H Hr.
  assert (He : exists e, r = BadRequest e)
    by (destruct Hr as [->|[pid ->]]; eauto).
  destruct He as [e ->]. destruct H as [H|H].
  - eapply post_orders_refused; eassumption.
  - eapply put_orders_refused; eassumption.
Qed.

(** An update of order 7 with the existing user 42 and the missing
    product 999. *)
Lemma invalid_reference_no_write_witness :
  let request := mkBody (Some 42) (Some [item 999 1]) None in
  let r := BadRequest (ProductDoesNotExist 999) in
  put_orders 7 request shop = (r, snd (put_orders 7 request shop)) /\
  InvalidReference r /\
  snd (put_orders 7 request shop) = shop.
Proof.
  cbv zeta.
  assert (H : put_orders 7 (mkBody (Some 42) (Some [item 999 1]) None) shop
              = (BadRequest (ProductDoesNotExist 999),
                 snd (put_orders 7 (mkBody (Some 42) (Some [item 999 1]) None) shop)))
    by (vm_compute; reflexivity).
  assert (Hr : InvalidReference (BadRequest (ProductDoesNotExist 999)))
    by (right; exists 999; reflexivity).
  split; [exact H|]. split; [exact Hr|].
  exact (invalid_reference_no_write _ shop 7 _ _ (or_intror H) Hr).
Defined.

(* ================================================================== *)
(** ** Partial update (C5, C6) *)

(** C5: for every stored order, updateOrder with a body that has no
    products array (only a userId, whether that user exists or not)
    leaves the order's products and total as they were. *)
Theorem update_without_products_keeps_total db id before body :
  Order_findByPk db id = Some before ->
  body_products body = None ->
  exists after,
    Order_findByPk (snd (put_orders id body db)) id = Some after /\
    products after = products before /\ total after = total before.
Proof.
  intros Hb Hp. unfold put_orders, put_userId, put_products. rewrite Hb, Hp.
  destruct (body_userId body) as [uid|].
  - destruct (falsy (Some uid)).
    + eexists. split; [apply Order_save_lookup|]. split; reflexivity.
    + destruct (User_findByPk db uid).
      * eexists. split; [apply Order_save_lookup|]. split; reflexivity.
      * exists before. split; [exact Hb|]. split; reflexivity.
  - eexists. split; [apply Order_save_lookup|]. split; reflexivity.
Qed.

(** Order 7 handed over to user 42. *)
Lemma update_without_products_keeps_total_witness :
  let request := mkBody (Some 42) None None in
  Order_findByPk shop 7 = Some order7 /\
  body_products request = None /\
  exists after,
    Order_findByPk (snd (put_orders 7 request shop)) 7 = Some after /\
    products after = products order7 /\ total after = total order7.
Proof.
  cbv zeta.
  assert (H : Order_findByPk shop 7 = Some order7) by (vm_compute; reflexivity).
  split; [exact H|]. split; [reflexivity|].
  exact (update_without_products_keeps_total shop 7 order7
           (mkBody (Some 42) None None) H eq_refl).
Defined.

(** C6: a successful updateOrder stores the merged record under the
    order's id and touches no other order.  When the body carries a
    products array, the stored products are that array and the stored
    total is computed from it at the current prices of the catalogue;
    when it carries none, products and total are those the order had. *)
Theorem update_recomputes_total_iff_products db id body o' db' :
  put_orders id body db = (Ok id o', db') ->
  exists o,
    Order_findByPk db id = Some o /\
    Order_findByPk db' id = Some o' /\
    (forall j, j <> id -> Order_findByPk db' j = Order_findByPk db j) /\
    userId o' = (if falsy (body_userId body) then userId o
                 else default (userId o) (body_userId body)) /\
    match body_products body with
    | Some l =>
        products o' = l /\ total o' = calculateOrderTotal db l /\
        computeTotal db l = Some (total o')
    | None => products o' = products o /\ total o' = total o
    end.
Proof.
  intros H. apply put_orders_Ok in H.
  destruct H as (o & Ho & _ & -> & Hu & Hp).
  exists o. split; [exact Ho|]. split; [apply Order_save_lookup|].
  split; [|split; [exact Hu|]].
  - intros j Hj. unfold Order_findByPk, Order_save. cbn [Orders].
    apply lookup_insert_ne. congruence.
  - destruct (body_products body) as [l|]; [|exact Hp].
    destruct Hp as (Hres & Hprod & Htot). repeat split; try assumption.
    rewrite Htot. apply calculateOrderTotal_computeTotal. exact Hres.
Qed.

(** Order 7 handed over to user 42 with two units of P1 and three of P2. *)
Lemma update_recomputes_total_iff_products_witness :
  let request := mkBody (Some 42) (Some [item 1 2; item 2 3]) None in
  let stored := mkOrder 42 [item 1 2; item 2 3] 35.01 in
  put_orders 7 request shop = (Ok 7 stored, Order_save shop 7 stored) /\
  exists o,
    Order_findByPk shop 7 = Some o /\
    Order_findByPk (Order_save shop 7 stored) 7 = Some stored /\
    (forall j, j <> 7 ->
       Order_findByPk (Order_save shop 7 stored) j = Order_findByPk shop j) /\
    userId stored = 42 /\
    products stored = [item 1 2; item 2 3] /\
    total stored = calculateOrderTotal shop [item 1 2; item 2 3] /\
    computeTotal shop [item 1 2; item 2 3] = Some (total stored).
Proof.
  cbv zeta.
  assert (H : put_orders 7 (mkBody (Some 42) (Some [item 1 2; item 2 3]) None) shop
              = (Ok 7 (mkOrder 42 [item 1 2; item 2 3] 35.01),
                 Order_save shop 7 (mkOrder 42 [item 1 2; item 2 3] 35.01)))
    by (vm_compute; reflexivity).
  split; [exact H|].
  exact (update_recomputes_total_iff_products shop 7 _ _ _ H).
Defined.

(** Without a products array the total is not recomputed: after the
    price of product 1 has gone from 9.99 to 12.5, handing order 7 over
    to user 42 keeps its total of 9.99. *)
Example update_keeps_total_after_price_change :
  let request := mkBody (Some 42) None None in
  fst (put_orders 7 request shop_repriced) = Ok 7 (mkOrder 42 [item 1 1] 9.99) /\
  calculateOrderTotal shop_repriced [item 1 1] = 12.5%float.
Proof. cbv zeta. split; vm_compute; reflexivity. Qed.

(* ================================================================== *)
(** ** The caller cannot set the total (C9) *)

(** C9: two request bodies that differ only in a supplied [total] get the
    same answer and leave the same database, on createOrder and on
    updateOrder. *)
Theorem supplied_total_ignored b1 b2 db id :
  body_userId b1 = body_userId b2 ->
  body_products b1 = body_products b2 ->
  post_orders b1 db = post_orders b2 db /\
  put_orders id b1 db = put_orders id b2 db.
Proof.
  intros Hu Hp.
  unfold post_orders, put_orders, put_userId, put_products.
  rewrite Hu, Hp. split; reflexivity.
Qed.

Lemma supplied_total_ignored_witness :
  let b1 := mkBody (Some 1) (Some [item 1 2; item 2 3]) None in
  let b2 := mkBody (Some 1) (Some [item 1 2; item 2 3]) (Some 0.01%float) in
  body_userId b1 = body_userId b2 /\
  body_products b1 = body_products b2 /\
  post_orders b1 shop = post_orders b2 shop /\
  put_orders 7 b1 shop = put_orders 7 b2 shop.
Proof.
  cbv zeta. split; [reflexivity|]. split; [reflexivity|].
  exact (supplied_total_ignored
           (mkBody (Some 1) (Some [item 1 2; item 2 3]) None)
           (mkBody (Some 1) (Some [item 1 2; item 2 3]) (Some 0.01%float))
           shop 7 eq_refl eq_refl).
Defined.

(** What both of those requests store: the computed 35.01. *)
Example supplied_total_ignored_sample :
  fst (post_orders (mkBody (Some 1) (Some [item 1 2; item 2 3]) (Some 0.01%float)) shop)
  = Created 8 (mkOrder 1 [item 1 2; item 2 3] 35.01).
Proof. vm_compute. reflexivity. Qed.

(* ================================================================== *)
(** ** An order without line items (C10) *)

(** C10: createOrder with an existing userId and an empty products array
    succeeds and stores an order whose products are the empty sequence
    and whose total is 0. *)
Theorem create_empty_order db uid t :
  uid <> 0 -> is_Some (User_findByPk db uid) ->
  post_orders (mkBody (Some uid) (Some []) t) db
  = (Created (nextOrderId db) (mkOrder uid [] 0),
     snd (Order_create db (mkOrder uid [] 0))) /\
  Order_findByPk (snd (Order_create db (mkOrder uid [] 0))) (nextOrderId db)
  = Some (mkOrder uid [] 0).
Proof.
  intros Huid Hu. split; [|apply Order_create_lookup].
  rewrite (post_orders_resolved db uid [] t Huid Hu); [reflexivity|constructor].
Qed.

Lemma create_empty_order_witness :
  (1 <> 0 /\ is_Some (User_findByPk shop 1)) /\
  post_orders (mkBody (Some 1) (Some []) None) shop
  = (Created 8 (mkOrder 1 [] 0), snd (Order_create shop (mkOrder 1 [] 0))) /\
  Order_findByPk (snd (Order_create shop (mkOrder 1 [] 0))) 8
  = Some (mkOrder 1 [] 0).
Proof.
  assert (H0 : 1 <> 0) by lia.
  assert (H1 : is_Some (User_findByPk shop 1)) by (vm_compute; eauto).
  split; [split; assumption|].
  exact (create_empty_order shop 1 None H0 H1).
Defined.

(* ================================================================== *)
(** ** The sample shop is well formed *)

Lemma ordersBelowCounter_Forall db :
  map_Forall (fun id _ => id < nextOrderId db) (Orders db) -> ordersBelowCounter db.
Proof. intros H id [o Ho]. exact (H id o Ho). Qed.

Lemma shop_ordersBelowCounter : ordersBelowCounter shop.
Proof. apply ordersBelowCounter_Forall. apply (bool_decide_unpack _). vm_compute. reflexivity. Qed.

Lemma shop_noNegativePrice : noNegativePrice shop.
Proof.
  change (map_Forall (fun _ p => JS.signbit (price p) = false) (Products shop)).
  apply (bool_decide_unpack _). vm_compute. reflexivity.
Qed.

Lemma server_productsHaveCategories : productsHaveCategories server.
Proof.
  change (map_Forall (fun _ p => is_Some (Category_findByPk server (categoryId p)))
            (Products (tables server))).
  apply (bool_decide_unpack _). vm_compute. reflexivity.
Qed.

Lemma shop_ordersHaveUsers : ordersHaveUsers shop.
Proof.
  change (map_Forall (fun _ o => is_Some (User_findByPk shop (userId o))) (Orders shop)).
  apply (bool_decide_unpack _). vm_compute. reflexivity.
Qed.

Lemma server_productsBelowCounter : productsBelowCounter server.
Proof.
  intros id [p Hp]. revert id p Hp.
  change (map_Forall (fun id _ => id < nextProductId server) (Products (tables server))).
  apply (bool_decide_unpack _). vm_compute. reflexivity.
Qed.

(* ================================================================== *)
(** ** Reading, creating and deleting orders *)

(* ================================================================== *)
(** ** Reading and deleting orders *)

Lemma Db_eta db :
  mkDb (Users db) (Products db) (Orders db) (nextOrderId db) = db.
Proof. destruct db. reflexivity. Qed.

Lemma Order_save_same db id o :
  Order_findByPk db id = Some o -> Order_save db id o = db.
Proof.
  intros H. unfold Order_save. rewrite insert_id by exact H. apply Db_eta.
Qed.

(** The validation loop and the pricing loop read the table of products
    only. *)
Lemma firstMissingProduct_ext db1 db2 l :
  Products db1 = Products db2 ->
  firstMissingProduct db1 l = firstMissingProduct db2 l.
Proof.
  intros H. induction l as [|it l IH]; [reflexivity|].
  simpl. unfold Product_findByPk. rewrite H, IH. reflexivity.
Qed.

Lemma calculateOrderTotal_ext db1 db2 l :
  Products db1 = Products db2 ->
  calculateOrderTotal db1 l = calculateOrderTotal db2 l.
Proof.
  intros H. unfold calculateOrderTotal.
  assert (Hf : forall acc, fold_left (addLine db1) l acc = fold_left (addLine db2) l acc).
  { induction l as [|it l IH]; intros acc; [reflexivity|].
    simpl. rewrite IH. unfold addLine, Product_findByPk. rewrite H. reflexivity. }
  rewrite Hf. reflexivity.
Qed.

(** X1: [DELETE /orders/:id] of a stored order answers 200; afterwards
    [GET /orders/:id] answers 404 for that id and what it answered before
    for every other id, and users and products are as they were (nothing
    cascades). *)
Theorem delete_orders_id_removes db id :
  is_Some (Order_findByPk db id) ->
  fst (delete_orders_id id db) = R200 "Order deleted successfully"%string /\
  get_orders_id id (snd (delete_orders_id id db)) = R404 "Order not found" /\
  (forall j, j <> id ->
     get_orders_id j (snd (delete_orders_id id db)) = get_orders_id j db) /\
  Users (snd (delete_orders_id id db)) = Users db /\
  Products (snd (delete_orders_id id db)) = Products db.
Proof.
  intros [o Ho]. unfold delete_orders_id. rewrite Ho. cbn [fst snd].
  split; [reflexivity|]. split; [|split; [|split; reflexivity]].
  - unfold get_orders_id, Order_findByPk, Order_destroy. cbn [Orders].
    rewrite lookup_delete_eq. reflexivity.
  - intros j Hj. unfold get_orders_id, Order_findByPk, Order_destroy. cbn [Orders].
    rewrite lookup_delete_ne by congruence. reflexivity.
Qed.

Lemma delete_orders_id_removes_witness :
  is_Some (Order_findByPk shop 7) /\
  fst (delete_orders_id 7 shop) = R200 "Order deleted successfully"%string /\
  get_orders_id 7 (snd (delete_orders_id 7 shop)) = R404 "Order not found" /\
  (forall j, j <> 7 ->
     get_orders_id j (snd (delete_orders_id 7 shop)) = get_orders_id j shop) /\
  Users (snd (delete_orders_id 7 shop)) = Users shop /\
  Products (snd (delete_orders_id 7 shop)) = Products shop.
Proof.
  assert (H : is_Some (Order_findByPk shop 7)) by (vm_compute; eauto).
  split; [exact H|]. exact (delete_orders_id_removes shop 7 H).
Defined.

(** X2: a [DELETE /orders/:id] that follows a [DELETE] of the same id
    answers 404 "Order not found" and changes nothing, whether the first
    one found the order or not. *)
Theorem delete_orders_id_twice db id :
  delete_orders_id id (snd (delete_orders_id id db))
  = (R404 "Order not found", snd (delete_orders_id id db)).
Proof.
  unfold delete_orders_id at 2 3.
  destruct (Order_findByPk db id) as [o|] eqn:Ho; cbn [snd].
  - unfold delete_orders_id, Order_findByPk, Order_destroy. cbn [Orders].
    rewrite lookup_delete_eq. reflexivity.
  - unfold delete_orders_id. rewrite Ho. reflexivity.
Qed.

Lemma afterRequest_counter req db :
  ordersBelowCounter db ->
  ordersBelowCounter (afterRequest req db) /\
  nextOrderId db <= nextOrderId (afterRequest req db).
Proof.
  intros Hwf. destruct req as [body|id body|id]; cbn [afterRequest].
  - destruct (post_orders body db) as [r db'] eqn:E. cbn [snd].
    destruct r as [id o|id o|e|].
    + apply post_orders_Created in E.
      destruct E as (uid & l & _ & _ & _ & _ & _ & -> & _ & ->).
      unfold Order_create. cbn [snd]. split; [|cbn; lia].
      intros j [o' Hj]. unfold Order_findByPk in Hj. cbn in Hj |- *.
      destruct (decide (j = nextOrderId db)) as [->|Hne]; [lia|].
      rewrite lookup_insert_ne in Hj by congruence.
      assert (j < nextOrderId db) by (apply Hwf; unfold Order_findByPk; eauto). lia.
    + exfalso. revert E. unfold post_orders.
      repeat match goal with |- context [match ?x with _ => _ end] => destruct x end;
        cbn; discriminate.
    + apply post_orders_refused in E. subst. split; [exact Hwf|lia].
    + exfalso. revert E. unfold post_orders.
      repeat match goal with |- context [match ?x with _ => _ end] => destruct x end;
        cbn; discriminate.
  - unfold put_orders. destruct (Order_findByPk db id) as [o|] eqn:Ho;
      [|split; [exact Hwf|cbn; lia]].
    destruct (put_userId db body o) as [r|o1]; [split; [exact Hwf|cbn; lia]|].
    destruct (put_products db body o1) as [r|o2]; [split; [exact Hwf|cbn; lia]|].
    cbn [snd]. unfold Order_save. split; [|cbn; lia].
    intros j [o' Hj]. unfold Order_findByPk in Hj. cbn in Hj |- *.
    destruct (decide (j = id)) as [->|Hne].
    + apply Hwf. eauto.
    + rewrite lookup_insert_ne in Hj by congruence. apply Hwf. unfold Order_findByPk. eauto.
  - unfold delete_orders_id. destruct (Order_findByPk db id) as [o|] eqn:Ho;
      [|split; [exact Hwf|cbn; lia]].
    cbn [snd]. unfold Order_destroy. split; [|cbn; lia].
    intros j [o' Hj]. unfold Order_findByPk in Hj. cbn in Hj |- *.
    destruct (decide (j = id)) as [->|Hne].
    + rewrite lookup_delete_eq in Hj. discriminate.
    + rewrite lookup_delete_ne in Hj by congruence. apply Hwf. unfold Order_findByPk. eauto.
Qed.

(** A key below the counter stays below it. *)
Lemma afterRequests_counter reqs : forall db id,
  ordersBelowCounter db -> id < nextOrderId db ->
  id < nextOrderId (afterRequests reqs db).
Proof.
  unfold afterRequests.
  induction reqs as [|req reqs IH]; intros db id Hwf Hid; [exact Hid|].
  cbn [fold_left]. destruct (afterRequest_counter req db Hwf) as [Hwf' Hle].
  apply IH; [exact Hwf'|lia].
Qed.

(** X3: whatever sequence of creations, updates and deletions of orders
    is served, the keys of the stored orders stay below the counter of
    [Order.create], and the counter never goes down. *)
Theorem order_keys_stay_below_counter reqs db :
  ordersBelowCounter db ->
  ordersBelowCounter (afterRequests reqs db) /\
  nextOrderId db <= nextOrderId (afterRequests reqs db).
Proof.
  unfold afterRequests. revert db.
  induction reqs as [|req reqs IH]; intros db Hwf; [split; [exact Hwf|cbn; lia]|].
  cbn [fold_left]. destruct (afterRequest_counter req db Hwf) as [Hwf' Hle].
  destruct (IH _ Hwf') as [Hwf'' Hle']. split; [exact Hwf''|lia].
Qed.

Lemma order_keys_stay_below_counter_witness :
  let reqs := [PostOrders (mkBody (Some 1) (Some [item 1 2]) None); DeleteOrders 7] in
  ordersBelowCounter shop /\
  ordersBelowCounter (afterRequests reqs shop) /\
  nextOrderId shop <= nextOrderId (afterRequests reqs shop).
Proof.
  cbv zeta. split; [exact shop_ordersBelowCounter|].
  exact (order_keys_stay_below_counter _ shop shop_ordersBelowCounter).
Defined.

(** X4: when the keys are below the counter, a successful createOrder
    takes an id under which no order was stored; afterwards
    [GET /orders/:id] returns the created order for that id and what it
    returned before for every other id: no stored order is overwritten. *)
Theorem created_order_is_returned body db id o db' :
  ordersBelowCounter db ->
  post_orders body db = (Created id o, db') ->
  get_orders_id id db = R404 "Order not found" /\
  get_orders_id id db' = R200 (id, o) /\
  (forall j, j <> id -> get_orders_id j db' = get_orders_id j db).
Proof.
  intros Hwf H. apply post_orders_Created in H.
  destruct H as (uid & l & _ & _ & _ & _ & _ & -> & Ho & ->).
  split; [|split].
  - unfold get_orders_id.
    destruct (Order_findByPk db (nextOrderId db)) as [o'|] eqn:E; [|reflexivity].
    assert (nextOrderId db < nextOrderId db) by (apply Hwf; eauto). lia.
  - unfold get_orders_id. rewrite Order_create_lookup. reflexivity.
  - intros j Hj. unfold get_orders_id, Order_findByPk, Order_create. cbn [snd Orders].
    rewrite lookup_insert_ne by congruence. reflexivity.
Qed.

Lemma created_order_is_returned_witness :
  let body := mkBody (Some 1) (Some [item 1 2; item 2 3]) None in
  let o := mkOrder 1 [item 1 2; item 2 3] 35.01 in
  let db' := snd (Order_create shop o) in
  (ordersBelowCounter shop /\ post_orders body shop = (Created 8 o, db')) /\
  get_orders_id 8 shop = R404 "Order not found" /\
  get_orders_id 8 db' = R200 (8, o) /\
  (forall j, j <> 8 -> get_orders_id j db' = get_orders_id j shop).
Proof.
  cbv zeta.
  assert (H : post_orders (mkBody (Some 1) (Some [item 1 2; item 2 3]) None) shop
              = (Created 8 (mkOrder 1 [item 1 2; item 2 3] 35.01),
                 snd (Order_create shop (mkOrder 1 [item 1 2; item 2 3] 35.01))))
    by (vm_compute; reflexivity).
  split; [split; [exact shop_ordersBelowCounter|exact H]|].
  exact (created_order_is_returned _ shop 8 _ _ shop_ordersBelowCounter H).
Defined.

(** X5: the id of a stored order is never given to a later order,
    whatever requests to the order endpoints come in between, the
    deletion of that order included. *)
Theorem order_id_not_reused db id reqs body id' o db' :
  ordersBelowCounter db ->
  is_Some (Order_findByPk db id) ->
  post_orders body (afterRequests reqs db) = (Created id' o, db') ->
  id' <> id.
Proof.
  intros Hwf Hid H. apply post_orders_Created in H.
  destruct H as (uid & l & _ & _ & _ & _ & _ & -> & _ & _).
  pose proof (afterRequests_counter reqs db id Hwf (Hwf id Hid)). lia.
Qed.

Lemma order_id_not_reused_witness :
  let body := mkBody (Some 1) (Some [item 1 2]) None in
  let o := mkOrder 1 [item 1 2] 19.98 in
  let db := afterRequests [DeleteOrders 7] shop in
  (ordersBelowCounter shop /\ is_Some (Order_findByPk shop 7) /\
   post_orders body db = (Created 8 o, snd (Order_create db o))) /\
  8 <> 7.
Proof.
  cbv zeta.
  assert (H7 : is_Some (Order_findByPk shop 7)) by (vm_compute; eauto).
  assert (H : post_orders (mkBody (Some 1) (Some [item 1 2]) None)
                (afterRequests [DeleteOrders 7] shop)
              = (Created 8 (mkOrder 1 [item 1 2] 19.98),
                 snd (Order_create (afterRequests [DeleteOrders 7] shop)
                        (mkOrder 1 [item 1 2] 19.98))))
    by (vm_compute; reflexivity).
  split; [split; [exact shop_ordersBelowCounter|split; [exact H7|exact H]]|].
  exact (order_id_not_reused shop 7 [DeleteOrders 7] _ 8 _ _
           shop_ordersBelowCounter H7 H).
Defined.

(** X6: updateOrder is idempotent: the same request served a second
    time gets the same answer and leaves the database as the first left
    it. *)
Theorem put_orders_idempotent id body db :
  put_orders id body (snd (put_orders id body db)) = put_orders id body db.
Proof.
  unfold put_orders at 2 3.
  destruct (Order_findByPk db id) as [o|] eqn:Ho; cbn [snd].
  2:{ unfold put_orders. rewrite Ho. reflexivity. }
  destruct (put_userId db body o) as [r|o1] eqn:H1; cbn [snd].
  { unfold put_orders. rewrite Ho, H1. reflexivity. }
  destruct (put_products db body o1) as [r|o2] eqn:H2; cbn [snd].
  { unfold put_orders. rewrite Ho, H1, H2. reflexivity. }
  unfold put_orders. rewrite Order_save_lookup.
  assert (H1' : put_userId (Order_save db id o2) body o2 = inr o2).
  { revert H1 H2. unfold put_userId, put_products.
    destruct (body_userId body) as [uid|].
    - destruct (falsy (Some uid)); [reflexivity|].
      change (User_findByPk (Order_save db id o2) uid) with (User_findByPk db uid).
      destruct (User_findByPk db uid); [|discriminate].
      intros [= <-].
      destruct (body_products body) as [l|].
      + destruct (firstMissingProduct db l); [discriminate|]. intros [= <-]. reflexivity.
      + intros [= <-]. reflexivity.
    - reflexivity. }
  assert (H2' : put_products (Order_save db id o2) body o2 = inr o2).
  { revert H2. unfold put_products.
    destruct (body_products body) as [l|]; [|reflexivity].
    rewrite (firstMissingProduct_ext (Order_save db id o2) db l eq_refl).
    rewrite (calculateOrderTotal_ext (Order_save db id o2) db l eq_refl).
    destruct (firstMissingProduct db l); [discriminate|].
    intros [= <-]. reflexivity. }
  rewrite H1', H2'. f_equal.
  apply Order_save_same. apply Order_save_lookup.
Qed.

(** X7: an update of a stored order whose body has neither a userId
    (or has userId 0) nor a products array answers 200 with the order as
    it is and leaves the database unchanged. *)
Theorem put_orders_empty_body id body db o :
  Order_findByPk db id = Some o ->
  falsy (body_userId body) = true ->
  body_products body = None ->
  put_orders id body db = (Ok id o, db).
Proof.
  intros Ho Hu Hp. unfold put_orders, put_userId, put_products.
  rewrite Ho, Hp. destruct (body_userId body) as [uid|].
  - rewrite Hu. rewrite Order_save_same by exact Ho. reflexivity.
  - rewrite Order_save_same by exact Ho. reflexivity.
Qed.

Lemma put_orders_empty_body_witness :
  let body := mkBody (Some 0) None (Some 1%float) in
  (Order_findByPk shop 7 = Some order7 /\ falsy (body_userId body) = true /\
   body_products body = None) /\
  put_orders 7 body shop = (Ok 7 order7, shop).
Proof.
  cbv zeta.
  assert (H : Order_findByPk shop 7 = Some order7) by (vm_compute; reflexivity).
  split; [split; [exact H|split; reflexivity]|].
  exact (put_orders_empty_body 7 (mkBody (Some 0) None (Some 1%float)) shop order7
           H eq_refl eq_refl).
Defined.

(* ================================================================== *)
(** ** The sign of the total *)

Lemma SFdiv_signbit x y :
  SFsignbit x = false -> SFsignbit y = false ->
  SFsignbit (SFdiv prec emax x y) = false.
Proof.
  destruct x as [sx|sx| |sx mx ex], y as [sy|sy| |sy my ey];
    intros Hx Hy; simpl in Hx, Hy; subst; try reflexivity.
  unfold SFdiv.
  destruct (SFdiv_core_binary prec emax (Z.pos mx) ex (Z.pos my) ey) as [[mz ez] lz].
  destruct (binary_round_aux_sign (xorb false false) mz ez lz) as [H|H];
    rewrite H; reflexivity.
Qed.

Lemma signbit_div x y :
  JS.signbit x = false -> JS.signbit y = false -> JS.signbit (x / y) = false.
Proof. rewrite !signbit_SF, div_spec. apply SFdiv_signbit. Qed.

Lemma signbit_of_uint63 k : JS.signbit (PrimFloat.of_uint63 k) = false.
Proof.
  rewrite signbit_SF, of_uint63_spec.
  pose proof (Uint63.to_Z_bounded k) as Hk.
  destruct (Uint63.to_Z k) as [|p|p] eqn:E; [reflexivity| |lia].
  unfold binary_normalize, binary_round.
  destruct (shl_align _ _ _) as [mz ez].
  destruct (binary_round_aux_sign false (Z.pos mz) ez loc_Exact) as [H|H];
    rewrite H; reflexivity.
Qed.

Lemma signbit_Math_round x :
  JS.signbit x = false -> JS.signbit (JS.Math_round x) = false.
Proof.
  intros Hx. unfold JS.Math_round.
  destruct (Prim2SF x) as [s|s| |s m e] eqn:E; try exact Hx.
  destruct (0 <=? e); [exact Hx|].
  unfold JS.signbit in Hx. rewrite E in Hx. subst s.
  unfold JS.of_sign_magnitude. apply signbit_of_uint63.
Qed.

Lemma fold_addLine_signbit db l :
  noNegativePrice db -> noNegativeQuantity l ->
  forall acc, JS.signbit acc = false ->
  JS.signbit (fold_left (addLine db) l acc) = false.
Proof.
  intros Hp Hq. induction Hq as [|it l (q & Hq & Hs) _ IH]; intros acc Hacc;
    [exact Hacc|].
  cbn [fold_left]. apply IH. unfold addLine.
  destruct (Product_findByPk db (productId it)) as [p|] eqn:E; [|exact Hacc].
  apply signbit_add; [exact Hacc|]. rewrite Hq.
  apply signbit_mul; [eapply Hp; exact E|exact Hs].
Qed.

(** X8: when no price of the catalogue and no quantity of the sequence
    is negative, [calculateOrderTotal] does not return a negative number
    (its sign bit is clear; it may be NaN when a product is an infinity
    or NaN). *)
Theorem total_not_negative db l :
  noNegativePrice db -> noNegativeQuantity l ->
  JS.signbit (calculateOrderTotal db l) = false /\
  (calculateOrderTotal db l <? 0)%float = false.
Proof.
  intros Hp Hq.
  assert (H : JS.signbit (calculateOrderTotal db l) = false).
  { unfold calculateOrderTotal. apply signbit_div; [|reflexivity].
    apply signbit_Math_round. apply signbit_mul; [|reflexivity].
    apply fold_addLine_signbit; [assumption|assumption|reflexivity]. }
  split; [exact H|].
  rewrite ltb_spec. unfold JS.signbit in H.
  change (Prim2SF 0) with (S754_zero false).
  destruct (Prim2SF (calculateOrderTotal db l)) as [s|s| |s m e];
    simpl in H; subst; reflexivity.
Qed.

Lemma total_not_negative_witness :
  let l := [item 1 2; item 2 3] in
  (noNegativePrice shop /\ noNegativeQuantity l) /\
  JS.signbit (calculateOrderTotal shop l) = false /\
  (calculateOrderTotal shop l <? 0)%float = false.
Proof.
  cbv zeta.
  assert (H : noNegativeQuantity [item 1 2; item 2 3])
    by (repeat constructor; eexists; split; reflexivity).
  split; [split; [exact shop_noNegativePrice|exact H]|].
  exact (total_not_negative shop _ shop_noNegativePrice H).
Defined.

(* ================================================================== *)
(** ** Users, products and categories *)

Lemma falsyString_false s : s <> ""%string -> falsyString (Some s) = false.
Proof. intros H. unfold falsyString. apply String.eqb_neq. exact H. Qed.

Lemma falsy_false n : n <> 0 -> falsy (Some n) = false.
Proof. intros H. unfold falsy. apply Z.eqb_neq. exact H. Qed.

Lemma assignString_nonempty v field :
  field <> ""%string -> assignString v field <> ""%string.
Proof.
  intros H. unfold assignString. destruct v as [s|]; [|exact H].
  destruct (falsyString (Some s)) eqn:E; [exact H|].
  unfold falsyString in E. apply String.eqb_neq in E. exact E.
Qed.

(** X9: [POST /products] with a non-empty name and description, a price
    that is any number (zero and negative ones included) and the id of an
    existing category answers 201; [GET /products/:id] then returns the
    product under the new id, with [parseFloat] of the price, and returns
    for every other id what it returned before; the new id was free when
    the keys are below the counter. *)
Theorem post_products_creates srv name description p cid :
  name <> ""%string -> description <> ""%string ->
  cid <> 0 -> is_Some (Category_findByPk srv cid) ->
  let product := mkProduct name description (parseFloat p) cid in
  let id := nextProductId srv in
  let srv' := snd (Product_create srv product) in
  post_products (mkProductBody (Some name) (Some description) (Some p) (Some cid)) srv
  = (R201 (id, product), srv') /\
  get_products_id id (tables srv') = R200 (id, product) /\
  (forall j, j <> id ->
     get_products_id j (tables srv') = get_products_id j (tables srv)) /\
  (productsBelowCounter srv ->
     get_products_id id (tables srv) = R404 "Product not found").
Proof.
  intros Hn Hd Hc [c Hcat]. cbv zeta. split; [|split; [|split]].
  - unfold post_products. cbn [pbody_name pbody_description pbody_price pbody_categoryId].
    rewrite (falsyString_false _ Hn), (falsyString_false _ Hd), (falsy_false _ Hc), Hcat.
    reflexivity.
  - unfold get_products_id, Product_findByPk, Product_create. cbn [snd tables Products].
    rewrite lookup_insert_eq. reflexivity.
  - intros j Hj. unfold get_products_id, Product_findByPk, Product_create.
    cbn [snd tables Products]. rewrite lookup_insert_ne by congruence. reflexivity.
  - intros Hwf. unfold get_products_id.
    destruct (Product_findByPk (tables srv) (nextProductId srv)) eqn:E; [|reflexivity].
    assert (nextProductId srv < nextProductId srv) by (apply Hwf; eauto). lia.
Qed.

Lemma post_products_creates_witness :
  let product := mkProduct "P6" "refund" (-2.5) 1 in
  let srv' := snd (Product_create server product) in
  ("P6"%string <> ""%string /\ "refund"%string <> ""%string /\ 1 <> 0 /\
   is_Some (Category_findByPk server 1)) /\
  post_products (mkProductBody (Some "P6"%string) (Some "refund"%string)
                   (Some (-2.5)%float) (Some 1)) server
  = (R201 (6, product), srv') /\
  get_products_id 6 (tables srv') = R200 (6, product) /\
  (forall j, j <> 6 ->
     get_products_id j (tables srv') = get_products_id j (tables server)) /\
  (productsBelowCounter server ->
     get_products_id 6 (tables server) = R404 "Product not found").
Proof.
  cbv zeta.
  assert (Hn : "P6"%string <> ""%string) by discriminate.
  assert (Hd : "refund"%string <> ""%string) by discriminate.
  assert (Hc : 1 <> 0) by lia.
  assert (Hcat : is_Some (Category_findByPk server 1)) by (vm_compute; eauto).
  split; [repeat split; assumption|].
  exact (post_products_creates server "P6" "refund" (-2.5)%float 1 Hn Hd Hc Hcat).
Defined.

Lemma Server_eta srv :
  mkServer (tables srv) (Categories srv) (nextUserId srv) (nextProductId srv)
    (nextCategoryId srv) = srv.
Proof. destruct srv. reflexivity. Qed.

(** X10: a request to the user, product and category endpoints or to
    [DELETE /orders/:id] that is answered with status 400 or 404 leaves
    the state as it was. *)
Theorem refusals_do_not_write :
  (forall body srv,
     refused (fst (post_users body srv)) -> snd (post_users body srv) = srv) /\
  (forall id body db,
     refused (fst (put_users_id id body db)) -> snd (put_users_id id body db) = db) /\
  (forall body srv,
     refused (fst (post_products body srv)) -> snd (post_products body srv) = srv) /\
  (forall id body srv,
     refused (fst (put_products_id id body srv)) ->
     snd (put_products_id id body srv) = srv) /\
  (forall id db,
     refused (fst (delete_products_id id db)) -> snd (delete_products_id id db) = db) /\
  (forall body srv,
     refused (fst (post_categories body srv)) -> snd (post_categories body srv) = srv) /\
  (forall id body srv,
     refused (fst (put_categories_id id body srv)) ->
     snd (put_categories_id id body srv) = srv) /\
  (forall id db,
     refused (fst (delete_orders_id id db)) -> snd (delete_orders_id id db) = db).
Proof.
  repeat split.
  - intros body srv. unfold post_users.
    destruct (body_name body), (body_email body), (body_password body);
      try reflexivity.
    destruct (_ || _); [reflexivity|]. cbn. contradiction.
  - intros id body db. unfold put_users_id.
    destruct (User_findByPk db id); [cbn; contradiction|reflexivity].
  - intros body srv. unfold post_products.
    destruct (pbody_name body), (pbody_description body), (pbody_price body),
      (pbody_categoryId body); try reflexivity.
    destruct (_ || _); [reflexivity|].
    destruct (Category_findByPk srv _); [cbn; contradiction|reflexivity].
  - intros id body srv. unfold put_products_id.
    destruct (Product_findByPk (tables srv) id); [|reflexivity].
    destruct (put_categoryId srv body _); [reflexivity|cbn; contradiction].
  - intros id db. unfold delete_products_id.
    destruct (Product_findByPk db id); [cbn; contradiction|reflexivity].
  - intros body srv. unfold post_categories.
    destruct (cbody_name body); [|reflexivity].
    destruct (falsyString _); [reflexivity|cbn; contradiction].
  - intros id body srv. unfold put_categories_id.
    destruct (Category_findByPk srv id); [cbn; contradiction|reflexivity].
  - intros id db. unfold delete_orders_id.
    destruct (Order_findByPk db id); [cbn; contradiction|reflexivity].
Qed.

Lemma refusals_do_not_write_witness :
  let body := mkProductBody (Some "P6"%string) None (Some 1%float) (Some 99) in
  refused (fst (put_products_id 1 body server)) /\
  snd (put_products_id 1 body server) = server.
Proof.
  cbv zeta.
  assert (H : refused (fst (put_products_id 1
                (mkProductBody (Some "P6"%string) None (Some 1%float) (Some 99)) server)))
    by (vm_compute; exact I).
  split; [exact H|].
  exact (proj1 (proj2 (proj2 (proj2 refusals_do_not_write))) 1 _ server H).
Defined.

(** What each request other than an order request leaves alone. *)
Lemma post_users_frame body srv :
  let srv' := snd (post_users body srv) in
  Products (tables srv') = Products (tables srv) /\
  Orders (tables srv') = Orders (tables srv) /\
  nextOrderId (tables srv') = nextOrderId (tables srv) /\
  Categories srv' = Categories srv /\
  nextProductId srv' = nextProductId srv /\
  (forall j, is_Some (User_findByPk (tables srv) j) ->
             is_Some (User_findByPk (tables srv') j)).
Proof.
  cbv zeta. unfold post_users.
  destruct (body_name body), (body_email body), (body_password body);
    try (cbn [snd]; tauto).
  destruct (_ || _); [cbn [snd]; tauto|].
  unfold User_create. cbn [snd tables Products Orders nextOrderId Categories nextProductId].
  repeat split; try reflexivity.
  intros j Hj. unfold User_findByPk. cbn [Users].
  destruct (decide (j = nextUserId srv)) as [->|Hne].
  - rewrite lookup_insert_eq. eauto.
  - rewrite lookup_insert_ne by congruence. exact Hj.
Qed.

Lemma put_users_id_frame id body db :
  let db' := snd (put_users_id id body db) in
  Products db' = Products db /\ Orders db' = Orders db /\
  nextOrderId db' = nextOrderId db /\
  (forall j, is_Some (User_findByPk db j) -> is_Some (User_findByPk db' j)).
Proof.
  cbv zeta. unfold put_users_id.
  destruct (User_findByPk db id) as [u|] eqn:Hu; cbn [snd]; [|tauto].
  unfold User_save. cbn [Products Orders nextOrderId]. repeat split.
  intros j Hj. unfold User_findByPk. cbn [Users].
  destruct (decide (j = id)) as [->|Hne].
  - rewrite lookup_insert_eq. eauto.
  - rewrite lookup_insert_ne by congruence. exact Hj.
Qed.

Lemma post_products_frame body srv :
  let srv' := snd (post_products body srv) in
  Users (tables srv') = Users (tables srv) /\
  Orders (tables srv') = Orders (tables srv) /\
  nextOrderId (tables srv') = nextOrderId (tables srv) /\
  Categories srv' = Categories srv.
Proof.
  cbv zeta. unfold post_products.
  destruct (pbody_name body), (pbody_description body), (pbody_price body),
    (pbody_categoryId body); try (cbn [snd]; tauto).
  destruct (_ || _); [cbn [snd]; tauto|].
  destruct (Category_findByPk srv _); cbn [snd]; [|tauto].
  unfold Product_create. cbn. tauto.
Qed.

Lemma put_products_id_frame id body srv :
  let srv' := snd (put_products_id id body srv) in
  Users (tables srv') = Users (tables srv) /\
  Orders (tables srv') = Orders (tables srv) /\
  nextOrderId (tables srv') = nextOrderId (tables srv) /\
  Categories srv' = Categories srv /\
  nextProductId srv' = nextProductId srv.
Proof.
  cbv zeta. unfold put_products_id.
  destruct (Product_findByPk (tables srv) id); cbn [snd]; [|tauto].
  destruct (put_categoryId srv body _); cbn [snd]; [tauto|].
  unfold Product_save. cbn. tauto.
Qed.

Lemma delete_products_id_frame id db :
  let db' := snd (delete_products_id id db) in
  Users db' = Users db /\ Orders db' = Orders db /\
  nextOrderId db' = nextOrderId db.
Proof.
  cbv zeta. unfold delete_products_id.
  destruct (Product_findByPk db id); cbn [snd]; [|tauto].
  unfold Product_destroy. cbn. tauto.
Qed.

Lemma post_categories_frame body srv :
  let srv' := snd (post_categories body srv) in
  tables srv' = tables srv /\ nextProductId srv' = nextProductId srv /\
  (forall j, is_Some (Category_findByPk srv j) ->
             is_Some (Category_findByPk srv' j)).
Proof.
  cbv zeta. unfold post_categories.
  destruct (cbody_name body); cbn [snd]; [|tauto].
  destruct (falsyString _); cbn [snd]; [tauto|].
  unfold Category_create. cbn [snd tables nextProductId]. repeat split.
  intros j Hj. unfold Category_findByPk. cbn [Categories].
  destruct (decide (j = nextCategoryId srv)) as [->|Hne].
  - rewrite lookup_insert_eq. eauto.
  - rewrite lookup_insert_ne by congruence. exact Hj.
Qed.

Lemma put_categories_id_frame id body srv :
  let srv' := snd (put_categories_id id body srv) in
  tables srv' = tables srv /\ nextProductId srv' = nextProductId srv /\
  (forall j, is_Some (Category_findByPk srv j) ->
             is_Some (Category_findByPk srv' j)).
Proof.
  cbv zeta. unfold put_categories_id.
  destruct (Category_findByPk srv id) as [c|] eqn:Hc; cbn [snd]; [|tauto].
  unfold Category_save. cbn [tables nextProductId]. repeat split.
  intros j Hj. unfold Category_findByPk. cbn [Categories].
  destruct (decide (j = id)) as [->|Hne].
  - rewrite lookup_insert_eq. eauto.
  - rewrite lookup_insert_ne by congruence. exact Hj.
Qed.

(** X11: none of the requests [POST /users], [PUT /users/:id],
    [POST /products], [PUT /products/:id], [DELETE /products/:id],
    [POST /categories] and [PUT /categories/:id] changes a stored order:
    after it, [GET /orders/:id] answers for every id what it answered
    before, so the total of an order is not touched by a later change of
    a price.  ([DELETE /users/:id] and [DELETE /categories/:id] are not
    among the requests of [request]; nothing is said about them.) *)
Theorem orders_only_change_by_order_requests srv req :
  (forall r, req <> Orders_ r) ->
  Orders (tables (serve srv req)) = Orders (tables srv) /\
  nextOrderId (tables (serve srv req)) = nextOrderId (tables srv) /\
  (forall id, get_orders_id id (tables (serve srv req))
              = get_orders_id id (tables srv)).
Proof.
  intros Hreq.
  assert (H : Orders (tables (serve srv req)) = Orders (tables srv) /\
              nextOrderId (tables (serve srv req)) = nextOrderId (tables srv)).
  { destruct req as [b|id b|b|id b|id|b|id b|r]; cbn [serve withTables tables].
    - pose proof (post_users_frame b srv). cbv zeta in *. tauto.
    - pose proof (put_users_id_frame id b (tables srv)). cbv zeta in *. tauto.
    - pose proof (post_products_frame b srv). cbv zeta in *. tauto.
    - pose proof (put_products_id_frame id b srv). cbv zeta in *. tauto.
    - pose proof (delete_products_id_frame id (tables srv)). cbv zeta in *. tauto.
    - pose proof (post_categories_frame b srv) as (-> & _). tauto.
    - pose proof (put_categories_id_frame id b srv) as (-> & _). tauto.
    - exfalso. exact (Hreq r eq_refl). }
  destruct H as [Ho Hn]. repeat split; try assumption.
  intros id. unfold get_orders_id, Order_findByPk. rewrite Ho. reflexivity.
Qed.

Lemma orders_only_change_by_order_requests_witness :
  let req := DeleteProducts 1 in
  (forall r, req <> Orders_ r) /\
  Orders (tables (serve server req)) = Orders (tables server) /\
  nextOrderId (tables (serve server req)) = nextOrderId (tables server) /\
  (forall id, get_orders_id id (tables (serve server req))
              = get_orders_id id (tables server)).
Proof.
  cbv zeta.
  assert (H : forall r, DeleteProducts 1 <> Orders_ r) by (intros r; discriminate).
  split; [exact H|].
  exact (orders_only_change_by_order_requests server (DeleteProducts 1) H).
Defined.

(** X12: after [PUT /products/:id] with a price x, the product has the
    price [parseFloat x] and its other fields as before, an order of that
    product with quantity q is created with total
    Math.round((0 + parseFloat x * q) * 100) / 100, and the stored orders
    are as they were. *)
Theorem repriced_product_prices_new_orders srv pid p x uid q t :
  Product_findByPk (tables srv) pid = Some p ->
  uid <> 0 -> is_Some (User_findByPk (tables srv) uid) ->
  let srv' := snd (put_products_id pid (mkProductBody None None (Some x) None) srv) in
  get_products_id pid (tables srv')
  = R200 (pid, mkProduct (product_name p) (product_description p) (parseFloat x)
                 (categoryId p)) /\
  fst (post_orders (mkBody (Some uid) (Some [mkLineItem pid (Some q)]) t) (tables srv'))
  = Created (nextOrderId (tables srv))
      (mkOrder uid [mkLineItem pid (Some q)] (JS.round2 (0 + parseFloat x * q))) /\
  (forall id, get_orders_id id (tables srv') = get_orders_id id (tables srv)).
Proof.
  intros Hp Huid Hu. cbv zeta.
  unfold put_products_id. rewrite Hp. cbn [put_categoryId pbody_categoryId snd
    pbody_name pbody_description pbody_price assignString].
  set (p' := mkProduct _ _ _ _).
  assert (Hp' : Product_findByPk (tables (Product_save srv pid p')) pid = Some p').
  { unfold Product_findByPk, Product_save. cbn [tables Products].
    apply lookup_insert_eq. }
  split; [|split].
  - unfold get_products_id. rewrite Hp'. reflexivity.
  - rewrite (post_orders_resolved (tables (Product_save srv pid p')) uid
               [mkLineItem pid (Some q)] t Huid).
    + cbn [fst]. f_equal. unfold calculateOrderTotal, JS.round2.
      cbn [fold_left]. unfold addLine. cbn [productId quantity]. rewrite Hp'.
      reflexivity.
    + exact Hu.
    + constructor; [|constructor]. cbn [productId]. rewrite Hp'. eauto.
  - intros id. reflexivity.
Qed.

Lemma repriced_product_prices_new_orders_witness :
  let p := mkProduct "P1" "first" 9.99 1 in
  let srv' := snd (put_products_id 1 (mkProductBody None None (Some 12.5%float) None)
                     server) in
  (Product_findByPk (tables server) 1 = Some p /\ 42 <> 0 /\
   is_Some (User_findByPk (tables server) 42)) /\
  get_products_id 1 (tables srv') = R200 (1, mkProduct "P1" "first" (parseFloat 12.5) 1) /\
  fst (post_orders (mkBody (Some 42) (Some [mkLineItem 1 (Some 2%float)]) None)
         (tables srv'))
  = Created (nextOrderId (tables server))
      (mkOrder 42 [mkLineItem 1 (Some 2%float)]
         (JS.round2 (0 + parseFloat 12.5 * 2))) /\
  (forall id, get_orders_id id (tables srv') = get_orders_id id (tables server)).
Proof.
  cbv zeta.
  assert (Hp : Product_findByPk (tables server) 1 = Some (mkProduct "P1" "first" 9.99 1))
    by (vm_compute; reflexivity).
  assert (H0 : 42 <> 0) by lia.
  assert (Hu : is_Some (User_findByPk (tables server) 42)) by (vm_compute; eauto).
  split; [repeat split; assumption|].
  exact (repriced_product_prices_new_orders server 1 _ 12.5%float 42 2%float None
           Hp H0 Hu).
Defined.




(** X14: [POST /users] does not require the email to be new: the same
    valid body posted twice creates two users, with consecutive ids, and
    [GET /users/:id] returns each of them. *)
Theorem post_users_twice srv name email password :
  name <> ""%string -> email <> ""%string -> password <> ""%string ->
  let body := mkUserBody (Some name) (Some email) (Some password) in
  let id := nextUserId srv in
  let srv1 := snd (post_users body srv) in
  let srv2 := snd (post_users body srv1) in
  fst (post_users body srv) = R201 (mkPublicUser id name email) /\
  fst (post_users body srv1) = R201 (mkPublicUser (id + 1) name email) /\
  get_users_id id (tables srv2) = R200 (mkPublicUser id name email) /\
  get_users_id (id + 1) (tables srv2) = R200 (mkPublicUser (id + 1) name email).
Proof.
  intros Hn He Hp. cbv zeta. unfold post_users.
  cbn [body_name body_email body_password].
  rewrite (falsyString_false _ Hn), (falsyString_false _ He), (falsyString_false _ Hp).
  cbn [orb]. unfold User_create. cbn [fst snd nextUserId tables Users Products Orders
    nextOrderId Categories nextProductId nextCategoryId].
  repeat split.
  - unfold get_users_id, User_findByPk. cbn [Users].
    rewrite lookup_insert_ne by lia. rewrite lookup_insert_eq. reflexivity.
  - unfold get_users_id, User_findByPk. cbn [Users].
    rewrite lookup_insert_eq. reflexivity.
Qed.

Lemma post_users_twice_witness :
  let body := mkUserBody (Some "Carol"%string) (Some "alice@example.com"%string)
                (Some "pw"%string) in
  let srv1 := snd (post_users body server) in
  let srv2 := snd (post_users body srv1) in
  ("Carol"%string <> ""%string /\ "alice@example.com"%string <> ""%string /\
   "pw"%string <> ""%string) /\
  fst (post_users body server)
  = R201 (mkPublicUser 43 "Carol" "alice@example.com") /\
  fst (post_users body srv1)
  = R201 (mkPublicUser (43 + 1) "Carol" "alice@example.com") /\
  get_users_id 43 (tables srv2) = R200 (mkPublicUser 43 "Carol" "alice@example.com") /\
  get_users_id (43 + 1) (tables srv2)
  = R200 (mkPublicUser (43 + 1) "Carol" "alice@example.com").
Proof.
  cbv zeta.
  assert (Hn : "Carol"%string <> ""%string) by discriminate.
  assert (He : "alice@example.com"%string <> ""%string) by discriminate.
  assert (Hp : "pw"%string <> ""%string) by discriminate.
  split; [repeat split; assumption|].
  exact (post_users_twice server "Carol" "alice@example.com" "pw" Hn He Hp).
Defined.

(** X15: [PUT /users/:id] on a stored user answers 200 with the stored
    name and email; it never changes the password, whatever the body
    holds, never replaces a non-empty name or email by an empty one, and
    changes no other user. *)
Theorem put_users_id_keeps_password db id body u :
  User_findByPk db id = Some u ->
  exists u',
    User_findByPk (snd (put_users_id id body db)) id = Some u' /\
    fst (put_users_id id body db)
    = R200 (mkPublicUser id (user_name u') (user_email u')) /\
    user_password u' = user_password u /\
    (user_name u <> ""%string -> user_name u' <> ""%string) /\
    (user_email u <> ""%string -> user_email u' <> ""%string) /\
    (forall j, j <> id ->
       User_findByPk (snd (put_users_id id body db)) j = User_findByPk db j).
Proof.
  intros Hu. unfold put_users_id. rewrite Hu. cbn [fst snd].
  eexists. split; [|split; [|split; [|split; [|split]]]].
  - unfold User_findByPk, User_save. cbn [Users]. apply lookup_insert_eq.
  - reflexivity.
  - reflexivity.
  - cbn [user_name]. apply assignString_nonempty.
  - cbn [user_email]. apply assignString_nonempty.
  - intros j Hj. unfold User_findByPk, User_save. cbn [Users].
    apply lookup_insert_ne. congruence.
Qed.

Lemma put_users_id_keeps_password_witness :
  let body := mkUserBody (Some ""%string) (Some "a@b.c"%string) (Some "new"%string) in
  User_findByPk shop 1 = Some alice /\
  exists u',
    User_findByPk (snd (put_users_id 1 body shop)) 1 = Some u' /\
    fst (put_users_id 1 body shop)
    = R200 (mkPublicUser 1 (user_name u') (user_email u')) /\
    user_password u' = user_password alice /\
    (user_name alice <> ""%string -> user_name u' <> ""%string) /\
    (user_email alice <> ""%string -> user_email u' <> ""%string) /\
    (forall j, j <> 1 ->
       User_findByPk (snd (put_users_id 1 body shop)) j = User_findByPk shop j).
Proof.
  cbv zeta.
  assert (H : User_findByPk shop 1 = Some alice) by (vm_compute; reflexivity).
  split; [exact H|].
  exact (put_users_id_keeps_password shop 1 _ alice H).
Defined.

(* ================================================================== *)
(** ** Referential integrity *)

(** The order requests leave users and products alone, and an order they
    store names a user that exists. *)
Lemma afterRequest_frame req db :
  Users (afterRequest req db) = Users db /\
  Products (afterRequest req db) = Products db.
Proof.
  destruct req as [body|id body|id]; cbn [afterRequest].
  - unfold post_orders.
    destruct (body_userId body) as [uid|]; [|cbn; tauto].
    destruct (body_products body) as [l|]; [|cbn; tauto].
    destruct (falsy (Some uid)); [cbn; tauto|].
    destruct (User_findByPk db uid); [|cbn; tauto].
    destruct (firstMissingProduct db l); cbn; tauto.
  - unfold put_orders.
    destruct (Order_findByPk db id); [|cbn; tauto].
    destruct (put_userId db body _); [cbn; tauto|].
    destruct (put_products db body _); cbn; tauto.
  - unfold delete_orders_id.
    destruct (Order_findByPk db id); cbn; tauto.
Qed.

Lemma put_userId_user db body o o1 :
  put_userId db body o = inr o1 ->
  is_Some (User_findByPk db (userId o)) ->
  is_Some (User_findByPk db (userId o1)).
Proof.
  unfold put_userId. destruct (body_userId body) as [uid|].
  - destruct (falsy (Some uid)); [intros [= <-]; auto|].
    destruct (User_findByPk db uid) as [u|] eqn:Hu; [|discriminate].
    intros [= <-] _. cbn [userId]. rewrite Hu. eauto.
  - intros [= <-]. auto.
Qed.

Lemma put_products_user db body o1 o2 :
  put_products db body o1 = inr o2 -> userId o2 = userId o1.
Proof.
  unfold put_products. destruct (body_products body) as [l|].
  - destruct (firstMissingProduct db l); [discriminate|]. intros [= <-]. reflexivity.
  - intros [= <-]. reflexivity.
Qed.

Lemma afterRequest_users req db :
  ordersHaveUsers db -> ordersHaveUsers (afterRequest req db).
Proof.
  intros Hinv. destruct req as [body|id body|id]; cbn [afterRequest].
  - destruct (post_orders body db) as [r db'] eqn:E. cbn [snd].
    destruct r as [id o|id o|e|].
    + apply post_orders_Created in E.
      destruct E as (uid & l & _ & _ & Hu & _ & _ & -> & -> & ->).
      intros j o' Hj. unfold Order_findByPk, Order_create in Hj. cbn [snd Orders] in Hj.
      change (User_findByPk (snd (Order_create db _)) (userId o'))
        with (User_findByPk db (userId o')).
      destruct (decide (j = nextOrderId db)) as [->|Hne].
      * rewrite lookup_insert_eq in Hj. injection Hj as <-. exact Hu.
      * rewrite lookup_insert_ne in Hj by congruence. eapply Hinv. exact Hj.
    + revert E. unfold post_orders.
      repeat match goal with |- context [match ?x with _ => _ end] => destruct x end;
        cbn; discriminate.
    + apply post_orders_refused in E. subst. exact Hinv.
    + revert E. unfold post_orders.
      repeat match goal with |- context [match ?x with _ => _ end] => destruct x end;
        cbn; discriminate.
  - unfold put_orders.
    destruct (Order_findByPk db id) as [o|] eqn:Ho; [|exact Hinv].
    destruct (put_userId db body o) as [r|o1] eqn:H1; [exact Hinv|].
    destruct (put_products db body o1) as [r|o2] eqn:H2; [exact Hinv|].
    cbn [snd]. intros j o' Hj.
    unfold Order_findByPk, Order_save in Hj. cbn [Orders] in Hj.
    change (User_findByPk (Order_save db id o2) (userId o'))
      with (User_findByPk db (userId o')).
    destruct (decide (j = id)) as [->|Hne].
    + rewrite lookup_insert_eq in Hj. injection Hj as <-.
      rewrite (put_products_user _ _ _ _ H2).
      eapply put_userId_user; [exact H1|]. eapply Hinv. exact Ho.
    + rewrite lookup_insert_ne in Hj by congruence. eapply Hinv. exact Hj.
  - unfold delete_orders_id.
    destruct (Order_findByPk db id) eqn:Ho; cbn [snd]; [|exact Hinv].
    intros j o' Hj. unfold Order_findByPk, Order_destroy in Hj. cbn [Orders] in Hj.
    change (User_findByPk (Order_destroy db id) (userId o'))
      with (User_findByPk db (userId o')).
    destruct (decide (j = id)) as [->|Hne].
    + rewrite lookup_delete_eq in Hj. discriminate.
    + rewrite lookup_delete_ne in Hj by congruence. eapply Hinv. exact Hj.
Qed.

Lemma serve_orders_users srv req :
  ordersHaveUsers (tables srv) -> ordersHaveUsers (tables (serve srv req)).
Proof.
  intros Hinv.
  assert (Hmono : forall db',
            Orders db' = Orders (tables srv) ->
            (forall j, is_Some (User_findByPk (tables srv) j) ->
                       is_Some (User_findByPk db' j)) ->
            ordersHaveUsers db').
  { intros db' Ho Hu j o Hj. apply Hu. eapply Hinv.
    unfold Order_findByPk in *. rewrite <- Ho. exact Hj. }
  destruct req as [b|id b|b|id b|id|b|id b|r]; cbn [serve withTables tables].
  - pose proof (post_users_frame b srv) as H. cbv zeta in H. apply Hmono; tauto.
  - pose proof (put_users_id_frame id b (tables srv)) as H. cbv zeta in H.
    apply Hmono; tauto.
  - pose proof (post_products_frame b srv) as H. cbv zeta in H.
    apply Hmono; [tauto|]. intros j. unfold User_findByPk.
    destruct H as (-> & _). auto.
  - pose proof (put_products_id_frame id b srv) as H. cbv zeta in H.
    apply Hmono; [tauto|]. intros j. unfold User_findByPk.
    destruct H as (-> & _). auto.
  - pose proof (delete_products_id_frame id (tables srv)) as H. cbv zeta in H.
    apply Hmono; [tauto|]. intros j. unfold User_findByPk.
    destruct H as (-> & _). auto.
  - pose proof (post_categories_frame b srv) as (-> & _). exact Hinv.
  - pose proof (put_categories_id_frame id b srv) as (-> & _). exact Hinv.
  - apply afterRequest_users. exact Hinv.
Qed.

(** X16: if every stored order names an existing user, this is still so
    after any sequence of requests to the endpoints modelled here (user
    deletion is not among them). *)
Theorem orders_keep_their_users reqs srv :
  ordersHaveUsers (tables srv) ->
  ordersHaveUsers (tables (fold_left serve reqs srv)).
Proof.
  revert srv. induction reqs as [|req reqs IH]; intros srv Hinv; [exact Hinv|].
  cbn [fold_left]. apply IH. apply serve_orders_users. exact Hinv.
Qed.

Lemma orders_keep_their_users_witness :
  let reqs :=
    [PutUsers 1 (mkUserBody (Some "Al"%string) None None);
     Orders_ (PutOrders 7 (mkBody (Some 42) None None));
     Orders_ (PostOrders (mkBody (Some 1) (Some [item 1 2]) None))] in
  ordersHaveUsers (tables server) /\
  ordersHaveUsers (tables (fold_left serve reqs server)).
Proof.
  cbv zeta. split; [exact shop_ordersHaveUsers|].
  exact (orders_keep_their_users _ server shop_ordersHaveUsers).
Defined.

Lemma serve_products_categories srv req :
  productsHaveCategories srv -> productsHaveCategories (serve srv req).
Proof.
  intros Hinv.
  assert (Hmono : forall srv',
            Products (tables srv') = Products (tables srv) ->
            (forall j, is_Some (Category_findByPk srv j) ->
                       is_Some (Category_findByPk srv' j)) ->
            productsHaveCategories srv').
  { intros srv' Hp Hc j p Hj. apply Hc. eapply Hinv.
    unfold Product_findByPk in *. rewrite <- Hp. exact Hj. }
  destruct req as [b|id b|b|id b|id|b|id b|r]; cbn [serve].
  - pose proof (post_users_frame b srv) as H. cbv zeta in H.
    apply Hmono; [tauto|]. intros j. unfold Category_findByPk.
    destruct H as (_ & _ & _ & -> & _). auto.
  - pose proof (put_users_id_frame id b (tables srv)) as H. cbv zeta in H.
    apply Hmono; [cbn [withTables tables]; tauto|]. auto.
  - unfold post_products.
    destruct (pbody_name b) as [name|]; [|exact Hinv].
    destruct (pbody_description b) as [description|]; [|exact Hinv].
    destruct (pbody_price b) as [x|]; [|exact Hinv].
    destruct (pbody_categoryId b) as [cid|]; [|exact Hinv].
    destruct (_ || _); [exact Hinv|].
    destruct (Category_findByPk srv cid) as [c|] eqn:Hc; [|exact Hinv].
    cbn [snd Product_create]. intros j p Hj.
    unfold Product_findByPk in Hj. cbn [tables Products] in Hj.
    change (is_Some (Category_findByPk srv (categoryId p))).
    destruct (decide (j = nextProductId srv)) as [->|Hne].
    + rewrite lookup_insert_eq in Hj. injection Hj as <-. cbn [categoryId]. eauto.
    + rewrite lookup_insert_ne in Hj by congruence. eapply Hinv. exact Hj.
  - unfold put_products_id.
    destruct (Product_findByPk (tables srv) id) as [p0|] eqn:Hp0; [|exact Hinv].
    destruct (put_categoryId srv b p0) as [r|p1] eqn:H1; [exact Hinv|].
    cbn [snd]. intros j p Hj.
    unfold Product_findByPk, Product_save in Hj. cbn [tables Products] in Hj.
    change (is_Some (Category_findByPk srv (categoryId p))).
    destruct (decide (j = id)) as [->|Hne].
    + rewrite lookup_insert_eq in Hj. injection Hj as <-. cbn [categoryId].
      revert H1. unfold put_categoryId.
      destruct (pbody_categoryId b) as [cid|].
      * destruct (falsy (Some cid)); [intros [= <-]; eapply Hinv; exact Hp0|].
        destruct (Category_findByPk srv cid) as [c|] eqn:Hc; [|discriminate].
        intros [= <-]. cbn [categoryId]. eauto.
      * intros [= <-]. eapply Hinv; exact Hp0.
    + rewrite lookup_insert_ne in Hj by congruence. eapply Hinv. exact Hj.
  - unfold delete_products_id.
    destruct (Product_findByPk (tables srv) id) as [p0|] eqn:Hp0; cbn [snd].
    2:{ intros j p Hj. eapply Hinv. exact Hj. }
    intros j p Hj.
    unfold Product_findByPk, Product_destroy in Hj. cbn [withTables tables Products] in Hj.
    change (is_Some (Category_findByPk srv (categoryId p))).
    destruct (decide (j = id)) as [->|Hne].
    + rewrite lookup_delete_eq in Hj. discriminate.
    + rewrite lookup_delete_ne in Hj by congruence. eapply Hinv. exact Hj.
  - pose proof (post_categories_frame b srv) as H. cbv zeta in H.
    apply Hmono; [|tauto]. destruct H as (-> & _). reflexivity.
  - pose proof (put_categories_id_frame id b srv) as H. cbv zeta in H.
    apply Hmono; [|tauto]. destruct H as (-> & _). reflexivity.
  - pose proof (afterRequest_frame r (tables srv)) as [_ H].
    apply Hmono; [cbn [withTables tables]; exact H|]. auto.
Qed.

(** X17: if every stored product names an existing category, this is
    still so after any sequence of requests to the endpoints modelled
    here (category deletion is not among them). *)
Theorem products_keep_their_categories reqs srv :
  productsHaveCategories srv ->
  productsHaveCategories (fold_left serve reqs srv).
Proof.
  revert srv. induction reqs as [|req reqs IH]; intros srv Hinv; [exact Hinv|].
  cbn [fold_left]. apply IH. apply serve_products_categories. exact Hinv.
Qed.

Lemma products_keep_their_categories_witness :
  let reqs :=
    [PostCategories (mkCategoryBody (Some "books"%string));
     PutProducts 1 (mkProductBody None None None (Some 2));
     DeleteProducts 3] in
  productsHaveCategories server /\
  productsHaveCategories (fold_left serve reqs server).
Proof.
  cbv zeta. split; [exact server_productsHaveCategories|].
  exact (products_keep_their_categories _ server server_productsHaveCategories).
Defined.


(* ================================================================== *)
(** ** A new category *)

Lemma post_products_accepted srv name description p cid :
  name <> ""%string -> description <> ""%string ->
  cid <> 0 -> is_Some (Category_findByPk srv cid) ->
  fst (post_products
         (mkProductBody (Some name) (Some description) (Some p) (Some cid)) srv)
  = R201 (nextProductId srv, mkProduct name description (parseFloat p) cid).
Proof.
  intros Hn Hd Hc [c Hcat]. unfold post_products.
  cbn [pbody_name pbody_description pbody_price pbody_categoryId].
  rewrite (falsyString_false _ Hn), (falsyString_false _ Hd), (falsy_false _ Hc), Hcat.
  reflexivity.
Qed.

(** X18: [POST /categories] with a non-empty name answers 201 with the
    category under the next id; [GET /categories/:id] then returns it,
    and, the id not being 0, a [POST /products] that names it is
    accepted. *)
Theorem new_category_accepts_products srv cname name description p :
  cname <> ""%string -> name <> ""%string -> description <> ""%string ->
  nextCategoryId srv <> 0 ->
  let cid := nextCategoryId srv in
  let srv1 := snd (post_categories (mkCategoryBody (Some cname)) srv) in
  fst (post_categories (mkCategoryBody (Some cname)) srv)
  = R201 (cid, mkCategory cname) /\
  get_categories_id cid srv1 = R200 (cid, mkCategory cname) /\
  fst (post_products
         (mkProductBody (Some name) (Some description) (Some p) (Some cid)) srv1)
  = R201 (nextProductId srv, mkProduct name description (parseFloat p) cid).
Proof.
  intros Hc Hn Hd Hid. cbv zeta. unfold post_categories. cbn [cbody_name].
  rewrite (falsyString_false _ Hc). unfold Category_create. cbn [fst snd].
  set (srv1 := mkServer _ _ _ _ _).
  assert (Hcat : Category_findByPk srv1 (nextCategoryId srv) = Some (mkCategory cname)).
  { unfold Category_findByPk, srv1. cbn [Categories]. apply lookup_insert_eq. }
  split; [reflexivity|]. split.
  - unfold get_categories_id. rewrite Hcat. reflexivity.
  - rewrite (post_products_accepted srv1 name description p (nextCategoryId srv)
               Hn Hd Hid); [reflexivity|].
    rewrite Hcat. eauto.
Qed.

Lemma new_category_accepts_products_witness :
  let srv1 := snd (post_categories (mkCategoryBody (Some "books"%string)) server) in
  ("books"%string <> ""%string /\ "P6"%string <> ""%string /\
   "novel"%string <> ""%string /\ nextCategoryId server <> 0) /\
  fst (post_categories (mkCategoryBody (Some "books"%string)) server)
  = R201 (2, mkCategory "books") /\
  get_categories_id 2 srv1 = R200 (2, mkCategory "books") /\
  fst (post_products
         (mkProductBody (Some "P6"%string) (Some "novel"%string) (Some 7.5%float)
            (Some 2)) srv1)
  = R201 (6, mkProduct "P6" "novel" (parseFloat 7.5) 2).
Proof.
  cbv zeta.
  assert (Hc : "books"%string <> ""%string) by discriminate.
  assert (Hn : "P6"%string <> ""%string) by discriminate.
  assert (Hd : "novel"%string <> ""%string) by discriminate.
  assert (Hid : nextCategoryId server <> 0) by (vm_compute; discriminate).
  split; [repeat split; assumption|].
  exact (new_category_accepts_products server "books" "P6" "novel" 7.5%float
           Hc Hn Hd Hid).
Defined.
